(** * Pluggit: a Modbus polling bridge for the Pluggit AP310 ventilation unit

    Shallow embedding of [pluggit/__init__.py] (the plugin) and of
    [pluggit/common.py] (the Modbus client mixin), and the properties of
    the refresh cycle, of the command dispatcher and of the connection
    manager that the specification states.

    Python objects are modelled as follows.
    - The plugin instance is a record [Pluggit] of its attributes and of
      the two dictionaries of the class, as the instance sees them; a new
      instance takes these two as the class has them.
    - A Python [dict] is an association list in insertion order with
      unique keys ([dict_set] overwrites in place).
    - A method is a computation in the monad [M]: it takes the plugin and
      the device, and returns a result or a raised exception, the new
      plugin and device, and the events it produced, oldest first.
    - The Modbus transport ([ModbusTcpClient], its [execute] and [close])
      is outside the sources; it is the interface [ModbusTransport].
    - [time.sleep(s)] is the event [EvSleep] with the duration in
      milliseconds; [time.time()] only feeds log messages and is left out.
    - A [str] is the string of its UTF-8 bytes.
    - Pushing a value to an item ([item(value, trigger=...)]) is the event
      [EvPublish]; the host framework is taken not to raise there. *)

From Stdlib Require Import ZArith List String Bool Lia.
From Stdlib Require Import Floats.SpecFloat.
Import ListNotations.

Open Scope string_scope.
Open Scope Z_scope.
Open Scope list_scope.

(** ** Values, exceptions, results *)

(** Python values that reach an item or come from one. A [float] is an
    IEEE754 binary64 number, kept as a [spec_float] in binary64 form. *)
Inductive Value : Type :=
| VNone
| VBool (b : bool)
| VInt (n : Z)
| VStr (s : string)
| VFloat (x : spec_float).

Inductive Exn : Type :=
| KeyError (key : string)
| IndexError
| AttributeError (name : string)
| StructError
| ModbusException (code : Z).

Inductive Res (A : Type) : Type :=
| Ok (a : A)
| Raise (e : Exn).
Arguments Ok {A} a.
Arguments Raise {A} e.

(** ** Dictionaries *)

Section Dict.
Context {V : Type}.

Fixpoint dict_get (k : string) (d : list (string * V)) : option V :=
  match d with
  | [] => None
  | (k', v) :: r => if String.eqb k k' then Some v else dict_get k r
  end.

(** [d[k] = v]: an existing key keeps its place, a new one goes last. *)
Fixpoint dict_set (k : string) (v : V) (d : list (string * V))
  : list (string * V) :=
  match d with
  | [] => [(k, v)]
  | (k', v') :: r =>
      if String.eqb k k' then (k, v) :: r else (k', v') :: dict_set k v r
  end.

Definition dict_mem (k : string) (d : list (string * V)) : bool :=
  match dict_get k d with Some _ => true | None => false end.

Definition keys (d : list (string * V)) : list string := map fst d.
End Dict.

(** ** pluggit/common.py: the Modbus client mixin *)

Definition kwargs := list (string * Z).

(** The request classes that the mixin instantiates. *)
Inductive Request : Type :=
| ReadCoilsRequest (address count : Z) (kw : kwargs)
| ReadDiscreteInputsRequest (address count : Z) (kw : kwargs)
| WriteSingleCoilRequest (address : Z) (value : bool) (kw : kwargs)
| WriteMultipleCoilsRequest (address : Z) (values : list bool) (kw : kwargs)
| WriteSingleRegisterRequest (address value : Z) (kw : kwargs)
| WriteMultipleRegistersRequest (address : Z) (values : list Z) (kw : kwargs)
| ReadHoldingRegistersRequest (address count : Z) (kw : kwargs)
| ReadInputRegistersRequest (address count : Z) (kw : kwargs)
| ReadWriteMultipleRegistersRequest (args : list Z) (kw : kwargs).

Inductive Response : Type :=
| RegistersResponse (registers : list Z)
| BitsResponse (bits : list bool)
| WriteResponse (address count : Z)
| ExceptionResponse (function_code exception_code : Z).

(** What the plugin needs from the Modbus TCP client: building a client
    for a host and port, closing it, and executing one request. Each may
    raise and each may change the device. *)
Class ModbusTransport (D : Type) : Type := {
  ModbusTcpClient : string -> string -> D -> Res unit * D;
  close : D -> Res unit * D;
  execute : Request -> D -> Res Response * D
}.

Module ModbusClientMixin.
Section Mixin.
Context {D : Type} `{ModbusTransport D}.

Definition read_coils (address : Z) (count : Z) (kw : kwargs) :=
  execute (ReadCoilsRequest address count kw).

Definition read_discrete_inputs (address : Z) (count : Z) (kw : kwargs) :=
  execute (ReadDiscreteInputsRequest address count kw).

Definition write_coil (address : Z) (value : bool) (kw : kwargs) :=
  execute (WriteSingleCoilRequest address value kw).

Definition write_coils (address : Z) (values : list bool) (kw : kwargs) :=
  execute (WriteMultipleCoilsRequest address values kw).

Definition write_register (address value : Z) (kw : kwargs) :=
  execute (WriteSingleRegisterRequest address value kw).

Definition write_registers (address : Z) (values : list Z) (kw : kwargs) :=
  execute (WriteMultipleRegistersRequest address values kw).

Definition read_holding_registers (address : Z) (count : Z) (kw : kwargs) :=
  execute (ReadHoldingRegistersRequest address count kw).

Definition read_input_registers (address : Z) (count : Z) (kw : kwargs) :=
  execute (ReadInputRegistersRequest address count kw).

Definition readwrite_registers (args : list Z) (kw : kwargs) :=
  execute (ReadWriteMultipleRegistersRequest args kw).
End Mixin.

(** The default of the [count] parameter of the read methods. *)
Definition default_count : Z := 1.
End ModbusClientMixin.

(** ** The host framework: items, triggers, log *)

Record Item : Type := {
  id : string;
  attr : list (string * string)
}.

Record Trigger : Type := {
  caller : string;
  node : Item
}.

Inductive Level : Type := Debug | Info | Warn | Error.

(** The log lines of the plugin, one constructor per format string. *)
Inductive LogMsg : Type :=
| MsgConnecting (host port : string)
| MsgCouldNotConnect (host port : string) (e : Exn)
| MsgConnected (host port : string)
| MsgConnectionTook
| MsgDisconnectTook
| MsgInvalidKey (key : string)
| MsgSet (who command : string) (value : Value) (item_id : string)
| MsgUnitModeWeek
| MsgUnitModeManual
| MsgFanSpeed (level : Z)
| MsgRefreshWentWrong (e : Exn)
| MsgCycleTook.

Inductive Event : Type :=
| EvAcquire
| EvRelease
| EvNewClient (host port : string) (r : Res unit)
| EvClose (r : Res unit)
| EvExec (rq : Request) (r : Res Response)
| EvSleep (ms : Z)
| EvPublish (item : Item) (v : Value)
| EvAddTrigger (item : Item)
| EvSchedule (name : string) (cycle : string)
| EvLog (lvl : Level) (msg : LogMsg).

(** ** The plugin *)

Record Pluggit : Type := {
  _host : string;
  _port : string;
  _cycle : string;
  _is_connected : bool;
  _Pluggit : bool;  (* whether the attribute holds a client yet *)
  alive : bool;
  _myTempReadDict : list (string * Item);
  _myTempWriteDict : list (string * Item)
}.

Definition _modbusRegisterDic : list (string * Z) :=
  [ ("prmRamIdxT1", 133);
    ("prmRamIdxT2", 135);
    ("prmRamIdxT3", 137);
    ("prmRamIdxT4", 139);
    ("prmRamIdxUnitMode", 168);
    ("prmRamIdxBypassActualState", 198);
    ("prmRomIdxSpeedLevel", 324);
    ("prmNumOfWeekProgram", 466);
    ("prmFilterRemainingTime", 554) ].

(** ** The monad of methods *)

Section Monad.
Context {D : Type}.

(** The plugin instance and the device it talks to. *)
Record World : Type := {
  self : Pluggit;
  dev : D
}.

Definition M (A : Type) : Type := World -> Res A * World * list Event.

Definition ret {A} (a : A) : M A := fun w => (Ok a, w, []).

(** The events [t] came first, then the run [x]. *)
Definition prepend {A} (t : list Event) (x : Res A * World * list Event)
  : Res A * World * list Event :=
  (fst (fst x), snd (fst x), t ++ snd x).

Definition bind {A B} (m : M A) (f : A -> M B) : M B := fun w =>
  match m w with
  | (Ok a, w1, t1) =>
      match f a w1 with (r, w2, t2) => (r, w2, t1 ++ t2) end
  | (Raise e, w1, t1) => (Raise e, w1, t1)
  end.

Definition raise {A} (e : Exn) : M A := fun w => (Raise e, w, []).

(** [try: m except ...]: runs [m] and hands its outcome over instead of
    raising, for the handler to inspect. *)
Definition attempt {A} (m : M A) : M (Res A) := fun w =>
  match m w with (r, w1, t1) => (Ok r, w1, t1) end.

Definition emit (e : Event) : M unit := fun w => (Ok tt, w, [e]).

Definition get_self : M Pluggit := fun w => (Ok (self w), w, []).

Definition set_self (f : Pluggit -> Pluggit) : M unit := fun w =>
  (Ok tt, {| self := f (self w); dev := dev w |}, []).

(** A transport call: it acts on the device, [ev] records its outcome. *)
Definition call {A} (f : D -> Res A * D) (ev : Res A -> Event) : M A :=
  fun w =>
    match f (dev w) with
    | (r, d) => (r, {| self := self w; dev := d |}, [ev r])
    end.

Definition when (b : bool) (m : M unit) : M unit :=
  if b then m else ret tt.

Definition outcome {A} (x : Res A * World * list Event) : Res A :=
  fst (fst x).
Definition world_of {A} (x : Res A * World * list Event) : World :=
  snd (fst x).
Definition events {A} (x : Res A * World * list Event) : list Event :=
  snd x.
End Monad.

Arguments World D : clear implicits.
Arguments M D A : clear implicits.

Declare Scope py_scope.
Delimit Scope py_scope with py.
Notation "x <- m ;; k" := (bind m (fun x => k))
  (at level 61, m at next level, right associativity) : py_scope.
Notation "m ;; k" := (bind m (fun _ => k))
  (at level 61, right associativity) : py_scope.
Open Scope py_scope.

Section Methods.
Context {D : Type} `{ModbusTransport D}.

#[local] Abbreviation M := (M D).

Fixpoint for_each {A} (l : list A) (body : A -> M unit) : M unit :=
  match l with
  | [] => ret tt
  | x :: r => body x ;; for_each r body
  end.

Definition log (lvl : Level) (msg : LogMsg) : M unit := emit (EvLog lvl msg).
Definition sleep (ms : Z) : M unit := emit (EvSleep ms).

(** [item(v, trigger=self.get_trigger())]: the value goes to the item,
    tagged with the plugin as its originator. *)
Definition publish (item : Item) (v : Value) : M unit :=
  emit (EvPublish item v).

Definition set_connected (b : bool) (p : Pluggit) : Pluggit :=
  {| _host := _host p; _port := _port p; _cycle := _cycle p;
     _is_connected := b; _Pluggit := _Pluggit p; alive := alive p;
     _myTempReadDict := _myTempReadDict p;
     _myTempWriteDict := _myTempWriteDict p |}.

Definition set_client (p : Pluggit) : Pluggit :=
  {| _host := _host p; _port := _port p; _cycle := _cycle p;
     _is_connected := _is_connected p; _Pluggit := true; alive := alive p;
     _myTempReadDict := _myTempReadDict p;
     _myTempWriteDict := _myTempWriteDict p |}.

Definition set_alive (b : bool) (p : Pluggit) : Pluggit :=
  {| _host := _host p; _port := _port p; _cycle := _cycle p;
     _is_connected := _is_connected p; _Pluggit := _Pluggit p; alive := b;
     _myTempReadDict := _myTempReadDict p;
     _myTempWriteDict := _myTempWriteDict p |}.

Definition set_read (k : string) (item : Item) (p : Pluggit) : Pluggit :=
  {| _host := _host p; _port := _port p; _cycle := _cycle p;
     _is_connected := _is_connected p; _Pluggit := _Pluggit p;
     alive := alive p;
     _myTempReadDict := dict_set k item (_myTempReadDict p);
     _myTempWriteDict := _myTempWriteDict p |}.

Definition set_write (k : string) (item : Item) (p : Pluggit) : Pluggit :=
  {| _host := _host p; _port := _port p; _cycle := _cycle p;
     _is_connected := _is_connected p; _Pluggit := _Pluggit p;
     alive := alive p;
     _myTempReadDict := _myTempReadDict p;
     _myTempWriteDict := dict_set k item (_myTempWriteDict p) |}.

(** [self._Pluggit]: the attribute exists once [connect] has built a
    client. *)
Definition the_client : M unit :=
  p <- get_self ;;
  if _Pluggit p then ret tt else raise (AttributeError "_Pluggit").

Definition client_close : M unit :=
  the_client ;; call close EvClose.

Definition client_write_registers (address : Z) (values : list Z)
  : M Response :=
  the_client ;;
  call (ModbusClientMixin.write_registers address values [])
       (EvExec (WriteMultipleRegistersRequest address values [])).

Definition client_read_holding_registers (address count : Z) (kw : kwargs)
  : M Response :=
  the_client ;;
  call (ModbusClientMixin.read_holding_registers address count kw)
       (EvExec (ReadHoldingRegistersRequest address count kw)).

(** [response.getRegister(index)] *)
Definition getRegister (r : Response) (index : nat) : M Z :=
  match r with
  | RegistersResponse registers =>
      match nth_error registers index with
      | Some v => ret v
      | None => raise IndexError
      end
  | _ => raise (AttributeError "getRegister")
  end.

(** [response.registers] *)
Definition registers_of (r : Response) : M (list Z) :=
  match r with
  | RegistersResponse registers => ret registers
  | _ => raise (AttributeError "registers")
  end.

(** [self._modbusRegisterDic[key]] *)
Definition reg (key : string) : M Z :=
  match dict_get key _modbusRegisterDic with
  | Some a => ret a
  | None => raise (KeyError key)
  end.

(** *** Connection manager *)

Definition connect : M Value :=
  p <- get_self ;;
  if _is_connected p then ret (VBool true)
  else
    emit EvAcquire ;;
    r <- attempt (log Info (MsgConnecting (_host p) (_port p)) ;;
                  call (ModbusTcpClient (_host p) (_port p))
                       (EvNewClient (_host p) (_port p)) ;;
                  set_self set_client) ;;
    match r with
    | Raise e =>
        log Error (MsgCouldNotConnect (_host p) (_port p) e) ;;
        emit EvRelease ;;
        ret VNone
    | Ok _ =>
        emit EvRelease ;;
        log Info (MsgConnected (_host p) (_port p)) ;;
        set_self (set_connected true) ;;
        log Info MsgConnectionTook ;;
        ret VNone
    end.

Definition disconnect : M unit :=
  p <- get_self ;;
  when (_is_connected p) (attempt client_close ;; ret tt) ;;
  set_self (set_connected false) ;;
  log Info MsgDisconnectTook.

Definition start : M unit :=
  set_self (set_alive true) ;;
  p <- get_self ;;
  emit (EvSchedule "Pluggit" (_cycle p)).

Definition stop : M unit := set_self (set_alive false).
End Methods.

(** ** Floating point *)

Module PyFloat.

(** The IEEE754 binary32 number that a 32-bit pattern stands for. *)
Definition binary32_of_bits (bits : Z) : spec_float :=
  let s := Z.testbit bits 31 in
  let e := Z.land (Z.shiftr bits 23) 255 in
  let m := Z.land bits 8388607 in
  if e =? 255 then
    if m =? 0 then S754_infinity s else S754_nan
  else if e =? 0 then
    match m with
    | Zpos p => S754_finite s p (-149)
    | _ => S754_zero s
    end
  else
    match m + 8388608 with
    | Zpos p => S754_finite s p (e - 150)
    | _ => S754_nan
    end.

(** A C [float] read into a Python [float]: the same number in binary64
    form (every binary32 number is a binary64 number). *)
Definition to_double (x : spec_float) : spec_float :=
  match x with
  | S754_finite s m e => binary_normalize 53 1024 (cond_Zopp s (Zpos m)) e s
  | _ => x
  end.

(** [n / 2^p] rounded to the nearest integer, ties to even, for [0 <= n]. *)
Definition div_pow2_half_even (n p : Z) : Z :=
  let q := Z.shiftr n p in
  let r := n - Z.shiftl q p in
  let half := Z.shiftl 1 (p - 1) in
  if (half <? r) || ((half =? r) && Z.odd q) then q + 1 else q.

(** The integer nearest to [10^ndigits * x], ties to even, for finite
    [x] that is not an integer (so [e < 0]). *)
Definition scaled_half_even (ndigits : Z) (m : positive) (e : Z) : Z :=
  div_pow2_half_even (10 ^ ndigits * Zpos m) (- e).

(** The binary64 number nearest to the decimal [n / d] ([n], [d] below
    [2^53], [0 < d]); [s] is the sign, kept when [n] is zero. *)
Definition double_of_decimal (s : bool) (n d : Z) : spec_float :=
  SFdiv 53 1024 (binary_normalize 53 1024 (cond_Zopp s n) 0 s)
                (binary_normalize 53 1024 d 0 false).

(** The built-in [round(x, ndigits)] on a [float], for [0 <= ndigits]:
    [x] is rounded to [ndigits] decimals correctly (on its exact value,
    ties to even) and the decimal is read back as a [float]. Infinities,
    NaN, zeros and integers round to themselves. The model is exact as
    long as the scaled integer is below [2^53], which holds for every
    number that comes from a binary32 one and [ndigits = 2]. *)
Definition round (x : spec_float) (ndigits : Z) : spec_float :=
  match x with
  | S754_finite s m e =>
      if 0 <=? e then x
      else double_of_decimal s (scaled_half_even ndigits m e) (10 ^ ndigits)
  | _ => x
  end.

End PyFloat.

Module BinaryPayloadDecoder.

Definition is_word (r : Z) : bool := (0 <=? r) && (r <? 65536).

(** Modelled from the spec: [pluggit/payload.py] is not among the
    sources. The registers become the payload, each one a 16-bit word,
    most significant byte first. A value that is not a 16-bit word cannot
    be packed. *)
Definition fromRegisters (registers : list Z) : Res (list Z) :=
  if forallb is_word registers then Ok registers else Raise StructError.

(** Modelled from the spec: [pluggit/payload.py] is not among the
    sources. The first two 16-bit words of the payload are concatenated
    in big-endian order into a 32-bit pattern, which is read as an
    IEEE754 binary32 number; a shorter payload cannot be unpacked. *)
Definition decode_32bit_float (payload : list Z) : Res spec_float :=
  match payload with
  | hi :: lo :: _ =>
      Ok (PyFloat.to_double
            (PyFloat.binary32_of_bits (Z.lor (Z.shiftl hi 16) lo)))
  | _ => Raise StructError
  end.

End BinaryPayloadDecoder.

(** ** Configuration, command dispatcher, refresh cycle *)

Section Plugin.
Context {D : Type} `{ModbusTransport D}.

#[local] Abbreviation M := (M D).

Definition lift {A} (r : Res A) : M A :=
  match r with
  | Ok a => ret a
  | Raise e => raise e
  end.

(** [self._core.config.query_nodes(a)]: the items that carry attribute
    [a], in configuration order. *)
Definition query_nodes (a : string) (config : list Item) : list Item :=
  filter (fun item => dict_mem a (attr item)) config.

(** [item.attr[a]] *)
Definition attr_of (item : Item) (a : string) : M string :=
  match dict_get a (attr item) with
  | Some v => ret v
  | None => raise (KeyError a)
  end.

Definition pre_stage (config : list Item) : M unit :=
  for_each (query_nodes "pluggit_listen" config) (fun item =>
    pluggit_key <- attr_of item "pluggit_listen" ;;
    if dict_mem pluggit_key _modbusRegisterDic
    then set_self (set_read pluggit_key item)
    else log Warn (MsgInvalidKey pluggit_key)) ;;
  for_each (query_nodes "pluggit_send" config) (fun item =>
    pluggit_sendKey <- attr_of item "pluggit_send" ;;
    (* an attribute value is a string here, never None *)
    set_self (set_write pluggit_sendKey item) ;;
    emit (EvAddTrigger item)).

(** The two log lines after the read of the unit mode. *)
Definition log_unit_mode (active_unit_mode : Z) : M unit :=
  if active_unit_mode =? 8 then log Debug MsgUnitModeWeek
  else if active_unit_mode =? 4 then log Debug MsgUnitModeManual
  else ret tt.

Definition read_qty_1 : kwargs := [("read_qty", 1)].

Definition _activatePowerBoost : M unit :=
  let active_unit_mode_value := [4; 0] in
  let fan_speed_level_value := [4; 0] in
  a <- reg "prmRamIdxUnitMode" ;;
  client_write_registers a active_unit_mode_value ;;
  sleep 100 ;;
  a <- reg "prmRomIdxSpeedLevel" ;;
  client_write_registers a fan_speed_level_value ;;
  a <- reg "prmRamIdxUnitMode" ;;
  r <- client_read_holding_registers
         a ModbusClientMixin.default_count read_qty_1 ;;
  active_unit_mode <- getRegister r 0 ;;
  log_unit_mode active_unit_mode ;;
  a <- reg "prmRomIdxSpeedLevel" ;;
  r <- client_read_holding_registers
         a ModbusClientMixin.default_count read_qty_1 ;;
  fan_speed_level <- getRegister r 0 ;;
  log Debug (MsgFanSpeed fan_speed_level).

Definition _activateWeekProgram : M unit :=
  let active_unit_mode_value := [8; 0] in
  a <- reg "prmRamIdxUnitMode" ;;
  client_write_registers a active_unit_mode_value ;;
  a <- reg "prmRamIdxUnitMode" ;;
  r <- client_read_holding_registers
         a ModbusClientMixin.default_count read_qty_1 ;;
  active_unit_mode <- getRegister r 0 ;;
  log_unit_mode active_unit_mode ;;
  sleep 100 ;;
  a <- reg "prmRomIdxSpeedLevel" ;;
  r <- client_read_holding_registers
         a ModbusClientMixin.default_count read_qty_1 ;;
  fan_speed_level <- getRegister r 0 ;;
  log Debug (MsgFanSpeed fan_speed_level).

Definition isinstance_bool (v : Value) : bool :=
  match v with VBool _ => true | _ => false end.

Definition truthy (v : Value) : bool :=
  match v with VBool b => b | _ => false end.

Definition update_item (value : Value) (trigger : Trigger) : M unit :=
  if negb (String.eqb (caller trigger) "Pluggit") then
    let item := node trigger in
    if dict_mem "pluggit_send" (attr item) then
      command <- attr_of item "pluggit_send" ;;
      log Info (MsgSet (caller trigger) command value (id item)) ;;
      if String.eqb command "activatePowerBoost" && isinstance_bool value
      then if truthy value then _activatePowerBoost
           else _activateWeekProgram
      else ret tt
    else ret tt
  else ret tt.

(** One of the four temperature blocks of [_refresh]; they differ in the
    names of their locals only. *)
Definition read_temperature (values : Z) (item : Item) : M unit :=
  t <- client_read_holding_registers values 2 [("unit", 22)] ;;
  registers <- registers_of t ;;
  payload <- lift (BinaryPayloadDecoder.fromRegisters registers) ;;
  t <- lift (BinaryPayloadDecoder.decode_32bit_float payload) ;;
  let t := PyFloat.round t 2 in
  publish item (VFloat t).

(** [self._myTempReadDict[pluggit_key]] *)
Definition read_item (pluggit_key : string) : M Item :=
  p <- get_self ;;
  match dict_get pluggit_key (_myTempReadDict p) with
  | Some item => ret item
  | None => raise (KeyError pluggit_key)
  end.

(** The body of the loop of [_refresh]. *)
Definition refresh_param (pluggit_key : string) : M unit :=
  values <- reg pluggit_key ;;
  item <- read_item pluggit_key ;;
  r <- client_read_holding_registers
         values ModbusClientMixin.default_count read_qty_1 ;;
  registerValue <- getRegister r 0 ;;
  a <- reg "prmNumOfWeekProgram" ;;
  registerValue <-
    (if values =? a
     then publish item (VInt (registerValue + 1)) ;; ret (registerValue + 1)
     else ret registerValue) ;;
  a <- reg "prmRamIdxUnitMode" ;;
  when ((values =? a) && (registerValue =? 8))
       (publish item (VStr "Woche")) ;;
  a <- reg "prmRamIdxUnitMode" ;;
  when ((values =? a) && (registerValue =? 4))
       (publish item (VStr "Manuell")) ;;
  a <- reg "prmRomIdxSpeedLevel" ;;
  when (values =? a) (publish item (VInt registerValue)) ;;
  a <- reg "prmFilterRemainingTime" ;;
  when (values =? a) (publish item (VInt registerValue)) ;;
  a <- reg "prmRamIdxBypassActualState" ;;
  when ((values =? a) && (registerValue =? 255))
       (publish item (VStr "geöffnet")) ;;
  a <- reg "prmRamIdxBypassActualState" ;;
  when ((values =? a) && (registerValue =? 0))
       (publish item (VStr "geschlossen")) ;;
  a <- reg "prmRamIdxT1" ;;
  when (values =? a) (read_temperature values item) ;;
  a <- reg "prmRamIdxT2" ;;
  when (values =? a) (read_temperature values item) ;;
  a <- reg "prmRamIdxT3" ;;
  when (values =? a) (read_temperature values item) ;;
  a <- reg "prmRamIdxT4" ;;
  when (values =? a) (read_temperature values item) ;;
  sleep 100.

(** The loop of [_refresh] over the keys of the read dictionary. *)
Definition refresh_loop : M unit :=
  p <- get_self ;;
  for_each (keys (_myTempReadDict p)) refresh_param.

Definition _refresh : M unit :=
  disconnect ;;
  sleep 1000 ;;
  connect ;;
  r <- attempt refresh_loop ;;
  match r with
  | Raise e => log Error (MsgRefreshWentWrong e) ;; ret tt
  | Ok _ => log Debug MsgCycleTook
  end.

(** [Pluggit(core, conf)]: the attributes, then a first connect and
    disconnect. [_myTempReadDict] and [_myTempWriteDict] are attributes
    of the class, which [__init__] does not assign: the new instance
    sees them as the class has them at that time, [reads] and [writes]
    (both empty until a [pre_stage] has run). *)
Definition new_plugin (host port cycle : string)
    (reads writes : list (string * Item)) : Pluggit :=
  {| _host := host; _port := port; _cycle := cycle;
     _is_connected := false; _Pluggit := false; alive := false;
     _myTempReadDict := reads; _myTempWriteDict := writes |}.

Definition __init__ (host port cycle : string)
    (reads writes : list (string * Item)) (d : D)
  : Res unit * World D * list Event :=
  (connect ;; disconnect)
    {| self := new_plugin host port cycle reads writes; dev := d |}.

End Plugin.

(** ** What a run shows *)

Definition Item_eq_dec (a b : Item) : {a = b} + {a <> b}.
Proof.
  decide equality.
  - apply (list_eq_dec (fun x y : string * string =>
      ltac:(decide equality; apply string_dec) : {x = y} + {x <> y})).
  - apply string_dec.
Defined.

Definition Item_eqb (a b : Item) : bool :=
  if Item_eq_dec a b then true else false.

(** The values pushed to items, in order. *)
Definition publications (evs : list Event) : list (Item * Value) :=
  flat_map (fun e => match e with
                     | EvPublish item v => [(item, v)]
                     | _ => []
                     end) evs.

Definition published_to (item : Item) (evs : list Event) : list Value :=
  map snd (filter (fun p => Item_eqb (fst p) item) (publications evs)).

(** The requests sent to the device, in order. *)
Definition requests (evs : list Event) : list Request :=
  flat_map (fun e => match e with
                     | EvExec rq _ => [rq]
                     | _ => []
                     end) evs.

Definition is_read (rq : Request) : bool :=
  match rq with
  | ReadCoilsRequest _ _ _ | ReadDiscreteInputsRequest _ _ _
  | ReadHoldingRegistersRequest _ _ _ | ReadInputRegistersRequest _ _ _ => true
  | _ => false
  end.

(** The clients built, that is the sessions opened. *)
Definition session_opens (evs : list Event) : list Event :=
  filter (fun e => match e with EvNewClient _ _ _ => true | _ => false end)
         evs.

(** A run without its log lines: what the device and the host see. *)
Definition without_log (evs : list Event) : list Event :=
  filter (fun e => match e with EvLog _ _ => false | _ => true end) evs.

(** The single-register read and the two-register read of a parameter. *)
Definition single_read (address : Z) : Request :=
  ReadHoldingRegistersRequest address 1 [("read_qty", 1)].

Definition dual_read (address : Z) : Request :=
  ReadHoldingRegistersRequest address 2 [("unit", 22)].

(** The parameters that the refresh cycle decodes as floats. *)
Definition is_temperature (key : string) : bool :=
  existsb (String.eqb key)
          ["prmRamIdxT1"; "prmRamIdxT2"; "prmRamIdxT3"; "prmRamIdxT4"].

(** The raw values for which the refresh cycle has no label. *)
Definition unmapped (key : string) (raw : Z) : bool :=
  (String.eqb key "prmRamIdxUnitMode"
     && negb ((raw =? 8) || (raw =? 4)))
  || (String.eqb key "prmRamIdxBypassActualState"
        && negb ((raw =? 255) || (raw =? 0))).

(** The read dictionary as [pre_stage] leaves it: every item is bound
    under the key that its own attribute names. *)
Definition bound_under (entry : string * Item) : bool :=
  match dict_get "pluggit_listen" (attr (snd entry)) with
  | Some k => String.eqb k (fst entry)
  | None => false
  end.

Fixpoint distinct (l : list string) : bool :=
  match l with
  | [] => true
  | k :: r => negb (existsb (String.eqb k) r) && distinct r
  end.

Definition well_bound (d : list (string * Item)) : bool :=
  distinct (keys d) && forallb bound_under d.

Section Cycle.
Context {D : Type} `{ModbusTransport D}.

(** The start of [_refresh], up to the loop. *)
Definition fresh_session : M D Value :=
  disconnect ;; sleep 1000 ;; connect.

(** The index of the first key of [l] whose iteration raises, counting
    from [n], when the loop starts in [w]. *)
Fixpoint first_failure (l : list string) (w : World D) (n : nat)
  : option nat :=
  match l with
  | [] => None
  | k :: r =>
      match refresh_param k w with
      | (Ok _, w', _) => first_failure r w' (S n)
      | (Raise _, _, _) => Some n
      end
  end.

End Cycle.

(** ** A simulated unit

    A register bank behind the transport interface, to run the plugin on
    concrete inputs: reads return the words of the bank, writes store
    them, and the addresses in [broken] fail on every read. *)

Module Simulation.

Record Device : Type := {
  bank : Z -> Z;
  broken : list Z
}.

Definition words (d : Device) (address count : Z) : list Z :=
  map (fun i => bank d (address + Z.of_nat i)) (seq 0 (Z.to_nat count)).

Fixpoint store (address : Z) (values : list Z) (b : Z -> Z) : Z -> Z :=
  match values with
  | [] => b
  | v :: r =>
      store (address + 1) r (fun a => if a =? address then v else b a)
  end.

Definition run (rq : Request) (d : Device) : Res Response * Device :=
  match rq with
  | ReadHoldingRegistersRequest address count _ =>
      if existsb (Z.eqb address) (broken d)
      then (Raise (ModbusException 4), d)
      else (Ok (RegistersResponse (words d address count)), d)
  | WriteMultipleRegistersRequest address values _ =>
      (Ok (WriteResponse address (Z.of_nat (List.length values))),
       {| bank := store address values (bank d); broken := broken d |})
  | _ => (Ok (ExceptionResponse 0 1), d)
  end.

#[export] Instance transport : ModbusTransport Device := {
  ModbusTcpClient := fun _ _ d => (Ok tt, d);
  close := fun d => (Ok tt, d);
  execute := run
}.

(** A bank with 23.456 degrees at T1 (0x41BB, 0xA5E3), the week program
    active, the bypass open, fan level 3, week program 4 and 120 days of
    filter life; [mode] and [bypass] are the two flag registers. *)
Definition bank_with (mode bypass : Z) : Z -> Z := fun a =>
  if a =? 133 then 16827 else if a =? 134 then 42467
  else if a =? 135 then 16827 else if a =? 136 then 42467
  else if a =? 137 then 16827 else if a =? 138 then 42467
  else if a =? 139 then 16827 else if a =? 140 then 42467
  else if a =? 168 then mode
  else if a =? 198 then bypass
  else if a =? 324 then 3
  else if a =? 466 then 4
  else if a =? 554 then 120
  else 0.

Definition listener (name key : string) : Item :=
  {| id := name; attr := [("pluggit_listen", key)] |}.

Definition boost : Item :=
  {| id := "pluggit.boost"; attr := [("pluggit_send", "activatePowerBoost")] |}.

Definition t1 := listener "pluggit.t1" "prmRamIdxT1".
Definition t2 := listener "pluggit.t2" "prmRamIdxT2".
Definition unitMode := listener "pluggit.unitMode" "prmRamIdxUnitMode".
Definition bypassState :=
  listener "pluggit.bypass" "prmRamIdxBypassActualState".
Definition fanSpeed := listener "pluggit.fanSpeed" "prmRomIdxSpeedLevel".
Definition weekProgram := listener "pluggit.week" "prmNumOfWeekProgram".
Definition filterTime := listener "pluggit.filter" "prmFilterRemainingTime".

Definition config : list Item :=
  [unitMode; t1; weekProgram; boost; bypassState; fanSpeed; t2; filterTime].

(** The plugin after [__init__] and [pre_stage] on [config], in front of
    the given device. *)
Definition installed (d : Device) : World Device :=
  world_of (pre_stage config
    (world_of (__init__ "192.168.0.10" "502" "30" [] [] d))).

Definition healthy (mode bypass : Z) : Device :=
  {| bank := bank_with mode bypass; broken := [] |}.

(** The same unit with the reads of the week program number failing. *)
Definition faulty : Device :=
  {| bank := bank_with 8 255; broken := [466] |}.

Definition from_user (item : Item) : Trigger :=
  {| caller := "Visu"; node := item |}.

Definition from_plugin (item : Item) : Trigger :=
  {| caller := "Pluggit"; node := item |}.

(** The plugin in front of a healthy unit in week-program mode with the
    bypass open, and the same once connected. *)
Definition ready : World Device := installed (healthy 8 255).
Definition connected : World Device := world_of (connect ready).

End Simulation.

(** ** The loop body in closed form

    What one iteration of the refresh loop does, by cases on the answers
    of the device. [refresh_param_closed_form] below proves the body equal
    to it. *)

(** The values that the chain of tests publishes for an integer
    parameter read as [raw]. *)
Definition translation (key : string) (raw : Z) : list Value :=
  if String.eqb key "prmNumOfWeekProgram" then [VInt (raw + 1)]
  else if String.eqb key "prmRamIdxUnitMode" then
    if raw =? 8 then [VStr "Woche"]
    else if raw =? 4 then [VStr "Manuell"]
    else []
  else if String.eqb key "prmRomIdxSpeedLevel" then [VInt raw]
  else if String.eqb key "prmFilterRemainingTime" then [VInt raw]
  else if String.eqb key "prmRamIdxBypassActualState" then
    if raw =? 255 then [VStr "geöffnet"]
    else if raw =? 0 then [VStr "geschlossen"]
    else []
  else [].

(** Registers to rounded temperature. *)
Definition temperature_of (registers : list Z) : Res Value :=
  match BinaryPayloadDecoder.fromRegisters registers with
  | Raise e => Raise e
  | Ok payload =>
      match BinaryPayloadDecoder.decode_32bit_float payload with
      | Raise e => Raise e
      | Ok t => Ok (VFloat (PyFloat.round t 2))
      end
  end.

Section ClosedForm.
Context {D : Type} `{ModbusTransport D}.

(** The reads of one parameter at [address]: the values to publish, or
    the exception, with the device afterwards and the reads done. *)
Definition poll (key : string) (address : Z) (d : D)
  : Res (list Value) * D * list Event :=
  match execute (single_read address) d with
  | (Raise e, d1) => (Raise e, d1, [EvExec (single_read address) (Raise e)])
  | (Ok r, d1) =>
      let first := EvExec (single_read address) (Ok r) in
      match r with
      | RegistersResponse (raw :: _) =>
          if is_temperature key then
            match execute (dual_read address) d1 with
            | (Raise e, d2) =>
                (Raise e, d2, [first; EvExec (dual_read address) (Raise e)])
            | (Ok r2, d2) =>
                let second := EvExec (dual_read address) (Ok r2) in
                match r2 with
                | RegistersResponse registers =>
                    match temperature_of registers with
                    | Ok t => (Ok [t], d2, [first; second])
                    | Raise e => (Raise e, d2, [first; second])
                    end
                | _ => (Raise (AttributeError "registers"), d2,
                        [first; second])
                end
            end
          else (Ok (translation key raw), d1, [first])
      | RegistersResponse [] => (Raise IndexError, d1, [first])
      | _ => (Raise (AttributeError "getRegister"), d1, [first])
      end
  end.

Definition iteration (key : string) (w : World D)
  : Res unit * World D * list Event :=
  match dict_get key _modbusRegisterDic with
  | None => (Raise (KeyError key), w, [])
  | Some address =>
      match dict_get key (_myTempReadDict (self w)) with
      | None => (Raise (KeyError key), w, [])
      | Some item =>
          if _Pluggit (self w) then
            match poll key address (dev w) with
            | (Ok vs, d, reads) =>
                (Ok tt, {| self := self w; dev := d |},
                 reads ++ map (EvPublish item) vs ++ [EvSleep 100])
            | (Raise e, d, reads) =>
                (Raise e, {| self := self w; dev := d |}, reads)
            end
          else (Raise (AttributeError "_Pluggit"), w, [])
      end
  end.

End ClosedForm.

(** ** More of what a run shows *)

(** The lock operations, the sessions closed, the delays, the warnings
    and the triggers registered, each in order. *)
Definition lock_events (evs : list Event) : list Event :=
  filter (fun e => match e with
                   | EvAcquire | EvRelease => true
                   | _ => false
                   end) evs.

Definition closes (evs : list Event) : list Event :=
  filter (fun e => match e with EvClose _ => true | _ => false end) evs.

Definition sleeps (evs : list Event) : list Z :=
  flat_map (fun e => match e with EvSleep ms => [ms] | _ => [] end) evs.

Definition warnings (evs : list Event) : list LogMsg :=
  flat_map (fun e => match e with EvLog Warn m => [m] | _ => [] end) evs.

Definition triggers (evs : list Event) : list Item :=
  flat_map (fun e => match e with EvAddTrigger item => [item] | _ => [] end)
           evs.

(** The events that the body of the refresh loop produces: requests,
    values pushed to items, delays. *)
Definition loop_event (e : Event) : bool :=
  match e with
  | EvExec _ _ | EvPublish _ _ | EvSleep _ => true
  | _ => false
  end.

Definition is_ok {A} (r : Res A) : bool :=
  match r with Ok _ => true | Raise _ => false end.

(** The reads that the refresh loop issues for a key: the single-register
    read, then for a temperature the two-register read. *)
Definition reads_for (key : string) : list Request :=
  match dict_get key _modbusRegisterDic with
  | Some a => single_read a :: (if is_temperature key then [dual_read a] else [])
  | None => []
  end.

(** ** [pre_stage] in closed form *)

(** What [pre_stage] does with one item that listens: it binds the item
    under its key when the register dictionary has the key. *)
Definition install_listener (p : Pluggit) (item : Item) : Pluggit :=
  match dict_get "pluggit_listen" (attr item) with
  | Some k => if dict_mem k _modbusRegisterDic then set_read k item p else p
  | None => p
  end.

(** And with one item that sends. *)
Definition install_sender (p : Pluggit) (item : Item) : Pluggit :=
  match dict_get "pluggit_send" (attr item) with
  | Some k => set_write k item p
  | None => p
  end.

(** The keys that [pre_stage] warns about. *)
Definition invalid_keys (config : list Item) : list string :=
  flat_map (fun item =>
              match dict_get "pluggit_listen" (attr item) with
              | Some k => if dict_mem k _modbusRegisterDic then [] else [k]
              | None => []
              end)
           (query_nodes "pluggit_listen" config).

(** The last item of the configuration that listens under [key], when
    [key] is a key of the register dictionary. *)
Fixpoint last_listener (key : string) (config : list Item) : option Item :=
  match config with
  | [] => None
  | item :: r =>
      match last_listener key r with
      | Some later => Some later
      | None =>
          match dict_get "pluggit_listen" (attr item) with
          | Some k =>
              if String.eqb k key && dict_mem k _modbusRegisterDic
              then Some item else None
          | None => None
          end
      end
  end.

Definition is_exec (e : Event) : bool :=
  match e with EvExec _ _ => true | _ => false end.

Definition is_log (e : Event) : bool :=
  match e with EvLog _ _ => true | _ => false end.

(** ** The session part of a cycle in closed form *)

Section Session.
Context {D : Type} `{ModbusTransport D}.

(** The events of [connect] in the disconnected state, when the
    constructor of the client answered [r]: the lock is taken, the client
    is built, and the lock is given back, after the error line when the
    constructor raised. *)
Definition connect_trace (host port : string) (r : Res unit) : list Event :=
  [EvAcquire; EvLog Info (MsgConnecting host port); EvNewClient host port r]
  ++ match r with
     | Ok _ => [EvRelease; EvLog Info (MsgConnected host port);
                EvLog Info MsgConnectionTook]
     | Raise e => [EvLog Error (MsgCouldNotConnect host port e); EvRelease]
     end.

(** The plugin holds a session: it is connected and has a client. *)
Definition has_session (p : Pluggit) : bool :=
  _is_connected p && _Pluggit p.

(** The events of [disconnect]: the session is closed when there is one. *)
Definition disconnect_trace (w : World D) : list Event :=
  (if has_session (self w) then [EvClose (fst (close (dev w)))] else [])
  ++ [EvLog Info MsgDisconnectTook].

(** The device once the session, if any, is closed, and the answer of the
    constructor of the client called on it. *)
Definition closed_device (w : World D) : D :=
  if has_session (self w) then snd (close (dev w)) else dev w.

Definition new_client (w : World D) : Res unit * D :=
  ModbusTcpClient (_host (self w)) (_port (self w)) (closed_device w).

(** The events of the start of a cycle: the disconnect, then the pause of
    1000 ms, then the connect. *)
Definition session_trace (w : World D) : list Event :=
  disconnect_trace w ++ [EvSleep 1000]
  ++ connect_trace (_host (self w)) (_port (self w)) (fst (new_client w)).

(** The plugin and the device when the loop of the cycle starts. *)
Definition session_world (w : World D) : World D :=
  {| self := if is_ok (fst (new_client w))
             then set_connected true (set_client (set_connected false (self w)))
             else set_connected false (self w);
     dev := snd (new_client w) |}.

(** The requests sent to the transport one after the other: the answers
    and the device afterwards, when none of them raises. *)
Fixpoint replay (rqs : list Request) (d : D) : option (list Response * D) :=
  match rqs with
  | [] => Some ([], d)
  | rq :: rest =>
      match execute rq d with
      | (Ok a, d1) =>
          match replay rest d1 with
          | Some (answers, d2) => Some (a :: answers, d2)
          | None => None
          end
      | (Raise _, _) => None
      end
  end.

End Session.

(** The events of one iteration that returns: the reads of its key and
    what it publishes, no delay among them, then the delay of 100 ms. *)
Definition iteration_block (key : string) (block : list Event) : Prop :=
  exists body,
    block = body ++ [EvSleep 100] /\
    sleeps body = [] /\
    requests body = reads_for key.

(** ** More simulated units *)

Module Bench.
Import Simulation.

(** A unit whose UnitMode register cannot be read. *)
Definition deaf : Device := {| bank := bank_with 8 255; broken := [168] |}.

(** The simulated unit behind a client whose constructor raises. *)
Definition offline : ModbusTransport Device := {|
  ModbusTcpClient := fun _ _ d => (Raise (ModbusException 11), d);
  close := fun d => (Ok tt, d);
  execute := run
|}.

(** The simulated unit answering every request with the exception
    response "illegal data address" to function 3. *)
Definition rejecting : ModbusTransport Device := {|
  ModbusTcpClient := fun _ _ d => (Ok tt, d);
  close := fun d => (Ok tt, d);
  execute := fun _ d => (Ok (ExceptionResponse 3 2), d)
|}.

(** A plugin that has not built a client yet. *)
Definition unbuilt : World Device :=
  {| self := new_plugin "192.168.0.10" "502" "30" [] []; dev := healthy 8 255 |}.

End Bench.

(** * Properties *)

(** ** Running a method step by step *)

Section Stepping.
Context {D : Type} `{ModbusTransport D}.

Lemma events_prepend {A} t (x : Res A * World D * list Event) :
  events (prepend t x) = t ++ events x.
Proof. reflexivity. Qed.

Lemma outcome_prepend {A} t (x : Res A * World D * list Event) :
  outcome (prepend t x) = outcome x.
Proof. reflexivity. Qed.

Lemma world_of_prepend {A} t (x : Res A * World D * list Event) :
  world_of (prepend t x) = world_of x.
Proof. reflexivity. Qed.

Lemma bind_run {A B} (m : M D A) (k : A -> M D B) w :
  (x <- m ;; k x) w =
  match outcome (m w) with
  | Ok a => prepend (events (m w)) (k a (world_of (m w)))
  | Raise e => (Raise e, world_of (m w), events (m w))
  end.
Proof.
  unfold bind. destruct (m w) as [[[a|e] w1] t1]; [|reflexivity].
  cbn. now destruct (k a w1) as [[r w2] t2].
Qed.

Lemma bind_attempt {A B} (m : M D A) (k : Res A -> M D B) w :
  (r <- attempt m ;; k r) w =
  prepend (events (m w)) (k (outcome (m w)) (world_of (m w))).
Proof.
  unfold bind, attempt. destruct (m w) as [[r w1] t1]. cbn.
  now destruct (k r w1) as [[r2 w2] t2].
Qed.

Lemma for_each_cons {A} (x : A) l (body : A -> M D unit) w :
  for_each (x :: l) body w =
  match outcome (body x w) with
  | Ok _ => prepend (events (body x w)) (for_each l body (world_of (body x w)))
  | Raise e => (Raise e, world_of (body x w), events (body x w))
  end.
Proof. cbn [for_each]. now rewrite bind_run. Qed.

End Stepping.

(** ** Symbolic runs

    [crank] runs a method on a plugin given by its fields against a
    transport given by its three operations, and splits on each answer of
    the device as the run reaches it. *)

Ltac methods :=
  unfold _refresh, fresh_session, refresh_loop, connect,
    disconnect, update_item, refresh_param, read_temperature, read_item,
    _activatePowerBoost, _activateWeekProgram, client_write_registers,
    client_read_holding_registers, client_close, the_client, getRegister,
    registers_of, log_unit_mode, attr_of, lift, when, publish, log, sleep,
    ModbusClientMixin.read_holding_registers,
    ModbusClientMixin.write_registers, ModbusClientMixin.default_count,
    read_qty_1, single_read, dual_read, reg, bind, ret, call, emit,
    attempt, get_self, set_self, raise.

Ltac answer :=
  match goal with
  | |- context [if ?b then _ else _] => is_var b; destruct b
  | |- context [match dict_get ?k ?d with _ => _ end] =>
      is_var d; destruct (dict_get k d)
  | |- context [match ?f ?rq ?d with _ => _ end] =>
      is_var f; is_var d;
      destruct (f rq d) as [[[[|? ?]| | |]|?] ?]
  | |- context [match ?f ?a ?b ?d with _ => _ end] =>
      is_var f; is_var d; destruct (f a b d) as [[[]|?] ?]
  | |- context [match ?f ?d with _ => _ end] =>
      is_var f; is_var d; destruct (f d) as [[[]|?] ?]
  | |- context [if Z.eqb ?a ?b then _ else _] =>
      destruct (Z.eqb_spec a b); [try subst a|]
  | |- context [match BinaryPayloadDecoder.fromRegisters ?r with _ => _ end] =>
      destruct (BinaryPayloadDecoder.fromRegisters r)
  | |- context [match BinaryPayloadDecoder.decode_32bit_float ?r
                with _ => _ end] =>
      destruct (BinaryPayloadDecoder.decode_32bit_float r)
  end.

Ltac crank := repeat (cbn; answer); cbn.

Ltac open_world w T :=
  let d := fresh "d" in
  destruct w as [[? ? ? ? ? ? ? ?] d]; destruct T as [? ? ?].

Section ClosedFormProof.
Context {D : Type} `{T : ModbusTransport D}.

(** The register dictionary, entry by entry. *)
Lemma register_cases key a :
  dict_get key _modbusRegisterDic = Some a ->
  In (key, a) _modbusRegisterDic.
Proof.
  cbn.
  repeat match goal with
  | |- context [String.eqb key ?s] =>
      destruct (String.eqb_spec key s) as [->|_]; [intros [= <-]; tauto|]
  end.
  discriminate.
Qed.

Lemma refresh_param_unknown key (w : World D) :
  dict_get key _modbusRegisterDic = None ->
  refresh_param key w = (Raise (KeyError key), w, []).
Proof. intros E. unfold refresh_param, reg. now rewrite E. Qed.

(** The body of the refresh loop does what [iteration] says. *)
Lemma refresh_param_closed_form key (w : World D) :
  refresh_param key w = iteration key w.
Proof.
  destruct (dict_get key _modbusRegisterDic) as [a|] eqn:E.
  - apply register_cases in E. cbn in E.
    open_world w T.
    repeat (destruct E as [[= <- <-]|E]);
      try (unfold iteration, poll, temperature_of; methods; crank;
           reflexivity).
    destruct E.
  - unfold iteration. rewrite E. now apply refresh_param_unknown.
Qed.

End ClosedFormProof.

(** ** One iteration of the refresh loop *)

Section Observations.

Lemma publications_app t u :
  publications (t ++ u) = publications t ++ publications u.
Proof. apply flat_map_app. Qed.

Lemma publications_publish item vs :
  publications (map (EvPublish item) vs) = map (pair item) vs.
Proof.
  induction vs as [|v vs IH]; [reflexivity|].
  cbn. f_equal. exact IH.
Qed.

Lemma requests_app t u : requests (t ++ u) = requests t ++ requests u.
Proof. apply flat_map_app. Qed.

Lemma requests_publish item vs : requests (map (EvPublish item) vs) = [].
Proof. induction vs as [|v vs IH]; [reflexivity|exact IH]. Qed.

Lemma published_to_app item t u :
  published_to item (t ++ u) = published_to item t ++ published_to item u.
Proof.
  unfold published_to. now rewrite publications_app, filter_app, map_app.
Qed.

Lemma published_to_none item t :
  (forall it v, In (it, v) (publications t) -> it <> item) ->
  published_to item t = [].
Proof.
  unfold published_to. intros N.
  induction (publications t) as [|[it v] l IH]; [reflexivity|].
  cbn. unfold Item_eqb at 1. cbn.
  destruct (Item_eq_dec it item) as [->|_].
  - exfalso. apply (N item v); [now left|reflexivity].
  - apply IH. intros it' v' I. apply (N it' v'). now right.
Qed.

Lemma published_to_all item (vs : list Value) :
  map snd (filter (fun p => Item_eqb (fst p) item) (map (pair item) vs)) = vs.
Proof.
  induction vs as [|v vs IH]; [reflexivity|].
  cbn. unfold Item_eqb at 1. cbn.
  destruct (Item_eq_dec item item) as [_|N]; [|now destruct N].
  cbn. now rewrite IH.
Qed.

Lemma dict_get_In {V} k (v : V) d : dict_get k d = Some v -> In (k, v) d.
Proof.
  induction d as [|[k' v'] d IH]; [discriminate|].
  cbn. destruct (String.eqb_spec k k') as [->|_].
  - intros [= ->]. now left.
  - intros E. right. now apply IH.
Qed.

Lemma distinct_NoDup l : distinct l = true -> NoDup l.
Proof.
  induction l as [|k l IH]; [constructor|].
  cbn. intros [N R]%andb_prop. constructor; [|now apply IH].
  intros I. apply negb_true_iff in N.
  assert (X : existsb (String.eqb k) l = true).
  { apply existsb_exists. exists k. split; [assumption|apply String.eqb_refl]. }
  congruence.
Qed.

Lemma In_dict_get {V} k (v : V) d :
  NoDup (keys d) -> In (k, v) d -> dict_get k d = Some v.
Proof.
  induction d as [|[k' v'] d IH]; [intros _ []|].
  cbn. intros N [[= -> ->]|I].
  - now rewrite String.eqb_refl.
  - inversion N as [|? ? X Y]; subst.
    destruct (String.eqb_spec k k') as [->|_]; [|now apply IH].
    destruct X. change k' with (fst (k', v)). now apply in_map.
Qed.

(** Two keys that are bound to the same item are the same key. *)
Lemma bound_under_inj k1 k2 item :
  bound_under (k1, item) = true -> bound_under (k2, item) = true -> k1 = k2.
Proof.
  unfold bound_under. cbn.
  destruct (dict_get "pluggit_listen" (attr item)) as [k|]; [|discriminate].
  now intros ->%String.eqb_eq ->%String.eqb_eq.
Qed.

(** The number of values that [translation] gives. *)
Lemma translation_length key a raw :
  In (key, a) _modbusRegisterDic -> is_temperature key = false ->
  List.length (translation key raw) =
  if unmapped key raw then 0%nat else 1%nat.
Proof.
  intros I F. cbn in I.
  repeat (destruct I as [[= <- <-]|I]); try (now destruct I);
    try discriminate F;
    unfold translation, unmapped; cbn;
    repeat match goal with
    | |- context [Z.eqb ?x ?y] => destruct (Z.eqb x y)
    end; reflexivity.
Qed.

Lemma unmapped_temperature key raw :
  is_temperature key = true -> unmapped key raw = false.
Proof.
  unfold is_temperature, unmapped. cbn.
  repeat match goal with
  | |- context [String.eqb key ?s] =>
      destruct (String.eqb_spec key s) as [->|_]; [reflexivity|]
  end.
  discriminate.
Qed.

End Observations.

Section Iteration.
Context {D : Type} `{T : ModbusTransport D}.

(** The reads of a parameter publish nothing themselves. *)
Lemma poll_quiet key a (d : D) : publications (snd (poll key a d)) = [].
Proof.
  unfold poll. destruct T as [? ? ex]. crank.
  all: repeat match goal with
       | |- context [match ?x with _ => _ end] => destruct x
       end; reflexivity.
Qed.

(** A successful poll: one single-register read that returned a first
    word [raw], then for a temperature one two-register read; the values
    are the decoded temperature or the translation of [raw]. *)
Lemma poll_ok key a (d : D) vs :
  fst (fst (poll key a d)) = Ok vs ->
  exists raw rest,
    In (EvExec (single_read a) (Ok (RegistersResponse (raw :: rest))))
       (snd (poll key a d)) /\
    requests (snd (poll key a d)) =
      single_read a :: (if is_temperature key then [dual_read a] else []) /\
    if is_temperature key then exists t, vs = [t]
    else vs = translation key raw.
Proof.
  unfold poll. destruct T as [? ? ex]. cbn [execute].
  destruct (is_temperature key);
    destruct (ex (single_read a) d) as [[[[|raw rest]| | |]|e] d1]; cbn;
    try discriminate.
  - destruct (ex (dual_read a) d1) as [[[regs| | |]|e] d2]; cbn;
      try discriminate.
    destruct (temperature_of regs) as [t|e]; cbn; [|discriminate].
    intros [= <-]. exists raw, rest. cbn. repeat split; eauto.
  - intros [= <-]. exists raw, rest. cbn. repeat split; eauto.
Qed.

Lemma refresh_param_self key (w : World D) :
  self (world_of (refresh_param key w)) = self w.
Proof.
  rewrite refresh_param_closed_form. unfold iteration.
  repeat match goal with
  | |- context [match ?x with _ => _ end] => destruct x
  | |- context [if ?x then _ else _] => destruct x
  end; reflexivity.
Qed.

(** An iteration that raises has published nothing. *)
Lemma refresh_param_raise key (w : World D) e :
  outcome (refresh_param key w) = Raise e ->
  publications (events (refresh_param key w)) = [].
Proof.
  rewrite refresh_param_closed_form. unfold iteration.
  destruct (dict_get key _modbusRegisterDic) as [a|]; [|reflexivity].
  destruct (dict_get key (_myTempReadDict (self w))) as [item|]; [|reflexivity].
  destruct (_Pluggit _); [|reflexivity].
  pose proof (poll_quiet key a (dev w)) as Q.
  destruct (poll key a (dev w)) as [[[vs|e'] d1] reads]; [cbn; discriminate|].
  intros _. exact Q.
Qed.

(** An iteration publishes to the item bound under its key only. *)
Lemma refresh_param_publications key (w : World D) it v :
  In (it, v) (publications (events (refresh_param key w))) ->
  dict_get key (_myTempReadDict (self w)) = Some it.
Proof.
  rewrite refresh_param_closed_form. unfold iteration.
  destruct (dict_get key _modbusRegisterDic) as [a|]; [|intros []].
  destruct (dict_get key (_myTempReadDict (self w))) as [item|]; [|intros []].
  destruct (_Pluggit _); [|intros []].
  pose proof (poll_quiet key a (dev w)) as Q.
  destruct (poll key a (dev w)) as [[[vs|e'] d1] reads];
    unfold events; cbn [fst snd] in *.
  - rewrite !publications_app, Q, publications_publish. cbn.
    rewrite app_nil_r. intros (x & [= <- _] & _)%in_map_iff. reflexivity.
  - now rewrite Q.
Qed.

(** An iteration that returns: its reads, and what it published. *)
Lemma refresh_param_ok key (w : World D) :
  outcome (refresh_param key w) = Ok tt ->
  exists a item raw rest vs,
    dict_get key _modbusRegisterDic = Some a /\
    dict_get key (_myTempReadDict (self w)) = Some item /\
    In (EvExec (single_read a) (Ok (RegistersResponse (raw :: rest))))
       (events (refresh_param key w)) /\
    requests (events (refresh_param key w)) =
      single_read a :: (if is_temperature key then [dual_read a] else []) /\
    publications (events (refresh_param key w)) = map (pair item) vs /\
    List.length vs = (if unmapped key raw then 0%nat else 1%nat) /\
    (is_temperature key = false -> vs = translation key raw).
Proof.
  rewrite refresh_param_closed_form. unfold iteration.
  destruct (dict_get key _modbusRegisterDic) as [a|] eqn:E; [|cbn; discriminate].
  destruct (dict_get key (_myTempReadDict (self w))) as [item|]; [|cbn; discriminate].
  destruct (_Pluggit _); [|cbn; discriminate].
  pose proof (poll_quiet key a (dev w)) as Q.
  pose proof (poll_ok key a (dev w)) as P.
  destruct (poll key a (dev w)) as [[[vs|e'] d1] reads]; [|cbn; discriminate].
  intros _. unfold events; cbn [fst snd] in *.
  destruct (P vs eq_refl) as (raw & rest & I & R & V).
  exists a, item, raw, rest, vs. repeat split; trivial.
  - apply in_or_app. now left.
  - rewrite !requests_app, R, requests_publish. cbn. now rewrite app_nil_r.
  - rewrite !publications_app, Q, publications_publish. cbn.
    now rewrite app_nil_r.
  - destruct (is_temperature key) eqn:F.
    + destruct V as [t ->]. now rewrite unmapped_temperature.
    + subst vs. apply (translation_length key a raw); trivial.
      now apply register_cases.
  - intros F. now rewrite F in V.
Qed.

End Iteration.

(** ** The refresh cycle as a whole *)

Section Loop.
Context {D : Type} `{T : ModbusTransport D}.

(** A new session publishes nothing, never raises, and leaves the read
    dictionary alone. *)
Lemma fresh_session_quiet (w : World D) :
  publications (events (fresh_session w)) = [].
Proof. open_world w T. methods. crank. all: reflexivity. Qed.

Lemma fresh_session_dict (w : World D) :
  _myTempReadDict (self (world_of (fresh_session w))) =
  _myTempReadDict (self w).
Proof. open_world w T. methods. crank. all: reflexivity. Qed.

(** [_refresh], cut into the new session, the loop and the closing log
    line. It returns normally whatever the loop did. *)
Lemma _refresh_run (w : World D) :
  let s := fresh_session w in
  let l := for_each (keys (_myTempReadDict (self w))) refresh_param
                    (world_of s) in
  _refresh w =
  (Ok tt, world_of l,
   events s ++ events l ++
   [match outcome l with
    | Ok _ => EvLog Debug MsgCycleTook
    | Raise e => EvLog Error (MsgRefreshWentWrong e)
    end]).
Proof.
  open_world w T.
  unfold _refresh, fresh_session, refresh_loop, connect, disconnect,
    client_close, the_client, when, log, sleep, bind, ret, call, emit,
    attempt, get_self, set_self, raise, set_connected, set_client.
  crank.
  all: match goal with
       | |- context [for_each ?l ?b ?x] =>
           destruct (for_each l b x) as [[[[]|?] ?] ?]
       end; cbn; now rewrite <- ?app_assoc.
Qed.

Lemma loop_self l (w : World D) :
  self (world_of (for_each l refresh_param w)) = self w.
Proof.
  revert w. induction l as [|x l IH]; intros w; [reflexivity|].
  rewrite for_each_cons.
  destruct (outcome (refresh_param x w)); cbn.
  - unfold prepend, world_of in *. cbn. rewrite IH.
    apply refresh_param_self.
  - apply refresh_param_self.
Qed.

(** The loop publishes to the items of the keys it went through only. *)
Lemma loop_publications l (w : World D) it v :
  In (it, v) (publications (events (for_each l refresh_param w))) ->
  exists key, In key l /\ dict_get key (_myTempReadDict (self w)) = Some it.
Proof.
  revert w. induction l as [|x l IH]; intros w; [intros []|].
  rewrite for_each_cons.
  destruct (outcome (refresh_param x w)).
  - unfold prepend, events at 1. cbn [snd].
    rewrite publications_app. intros [I|I]%in_app_or.
    + exists x. split; [now left|].
      now apply refresh_param_publications in I.
    + apply IH in I. destruct I as (key & I & G).
      exists key. split; [now right|].
      now rewrite refresh_param_self in G.
  - unfold events at 1. cbn [snd]. intros I.
    exists x. split; [now left|].
    now apply refresh_param_publications in I.
Qed.

End Loop.

Section Cycles.
Context {D : Type} `{T : ModbusTransport D}.

Lemma bound_entry (rd : list (string * Item)) key item :
  forallb bound_under rd = true -> dict_get key rd = Some item ->
  bound_under (key, item) = true.
Proof.
  intros B G. apply dict_get_In in G.
  rewrite forallb_forall in B. now apply B.
Qed.

(** A loop that returns, seen from one of its keys: the item of the key
    got as many values as the iteration of the key published, none from
    the other iterations. *)
Lemma loop_ok l (w : World D) :
  distinct l = true ->
  forallb bound_under (_myTempReadDict (self w)) = true ->
  outcome (for_each l refresh_param w) = Ok tt ->
  forall key item,
    In key l -> dict_get key (_myTempReadDict (self w)) = Some item ->
    exists a raw rest,
      dict_get key _modbusRegisterDic = Some a /\
      In (EvExec (single_read a) (Ok (RegistersResponse (raw :: rest))))
         (events (for_each l refresh_param w)) /\
      List.length (published_to item (events (for_each l refresh_param w))) =
      if unmapped key raw then 0%nat else 1%nat.
Proof.
  revert w. induction l as [|x l IH]; intros w N B O key item I G;
    [destruct I|].
  cbn [distinct] in N. apply andb_prop in N as [X N].
  apply negb_true_iff in X.
  assert (Xl : ~ In x l).
  { intros J. rewrite <- not_true_iff_false in X. apply X.
    apply existsb_exists. exists x. split; [exact J|apply String.eqb_refl]. }
  rewrite for_each_cons in O |- *.
  destruct (outcome (refresh_param x w)) as [[]|e] eqn:R; [|discriminate O].
  rewrite outcome_prepend in O. rewrite !events_prepend.
  pose proof (refresh_param_self x w) as S1.
  remember (world_of (refresh_param x w)) as w1 eqn:W1.
  rewrite published_to_app.
  destruct I as [<-|I].
  - destruct (refresh_param_ok x w R)
      as (a & item' & raw & rest & vs & Ga & Gi & Iv & _ & P & L & _).
    rewrite G in Gi. injection Gi as <-.
    exists a, raw, rest. split; [exact Ga|]. split.
    { apply in_or_app. left. exact Iv. }
    rewrite (published_to_none item (events (for_each l refresh_param w1))).
    + rewrite app_nil_r. unfold published_to. rewrite P.
      rewrite published_to_all. exact L.
    + intros it v J E. subst it. apply loop_publications in J.
      destruct J as (key & J & G').
      rewrite S1 in G'. apply Xl.
      rewrite (bound_under_inj x key item
                 (bound_entry _ _ _ B G) (bound_entry _ _ _ B G')).
      exact J.
  - assert (B1 : forallb bound_under (_myTempReadDict (self w1)) = true)
      by (rewrite S1; exact B).
    assert (G1 : dict_get key (_myTempReadDict (self w1)) = Some item)
      by (rewrite S1; exact G).
    destruct (IH w1 N B1 O key item I G1) as (a & raw & rest & Ga & Iv & L).
    exists a, raw, rest. split; [exact Ga|]. split.
    { apply in_or_app. right. exact Iv. }
    rewrite (published_to_none item (events (refresh_param x w))); [exact L|].
    intros it v J E. subst it. apply refresh_param_publications in J.
    apply Xl.
    rewrite (bound_under_inj x key item
               (bound_entry _ _ _ B J) (bound_entry _ _ _ B G)).
    exact I.
Qed.

(** A loop whose iteration number [k] is the first to raise: the keys
    before it, the key itself, and nothing published past them. *)
Lemma loop_failure l (w : World D) n k :
  first_failure l w n = Some k ->
  exists pre key post e,
    l = pre ++ key :: post /\
    (n + List.length pre = k)%nat /\
    outcome (for_each l refresh_param w) = Raise e /\
    forall it v,
      In (it, v) (publications (events (for_each l refresh_param w))) ->
      exists key', In key' pre /\
                   dict_get key' (_myTempReadDict (self w)) = Some it.
Proof.
  revert w n. induction l as [|x l IH]; intros w n F; [discriminate F|].
  cbn [first_failure] in F. rewrite for_each_cons.
  pose proof (refresh_param_self x w) as S1.
  pose proof (refresh_param_raise x w) as Q.
  pose proof (refresh_param_publications x w) as P.
  destruct (refresh_param x w) as [[[[]|e] w1] t1];
    unfold outcome, events, world_of, prepend in *; cbn [fst snd] in *.
  - destruct (IH w1 (S n) F) as (pre & key & post & e & -> & L & O & J).
    exists (x :: pre), key, post, e. split; [reflexivity|].
    split; [cbn [List.length]; lia|]. split; [exact O|].
    rewrite publications_app.
    intros it v [I|I]%in_app_or.
    + exists x. split; [left; reflexivity|]. exact (P it v I).
    + apply J in I. destruct I as (key' & I & G).
      exists key'. split; [right; exact I|]. rewrite <- S1. exact G.
  - injection F as <-. exists [], x, l, e. split; [reflexivity|].
    split; [cbn [List.length]; lia|]. split; [reflexivity|].
    rewrite (Q e eq_refl). intros it v [].
Qed.


End Cycles.

(** ** The read dictionary that [pre_stage] builds *)

Section Configuration.
Context {D : Type} `{T : ModbusTransport D}.

Lemma existsb_dict_set x k (item : Item) d :
  existsb (String.eqb x) (keys (dict_set k item d)) =
  String.eqb x k || existsb (String.eqb x) (keys d).
Proof.
  unfold keys. induction d as [|[k' v'] d IH]; [reflexivity|].
  cbn [dict_set]. destruct (String.eqb_spec k k') as [->|_].
  - cbn [map fst existsb]. now destruct (String.eqb x k').
  - cbn [map fst existsb]. rewrite IH.
    now destruct (String.eqb x k'), (String.eqb x k).
Qed.

Lemma distinct_dict_set k (item : Item) d :
  distinct (keys d) = true -> distinct (keys (dict_set k item d)) = true.
Proof.
  induction d as [|[k' v'] d IH]; [reflexivity|].
  cbn [dict_set]. destruct (String.eqb_spec k k') as [->|N]; [trivial|].
  unfold keys in *. cbn [map fst distinct].
  intros [X R]%andb_prop. rewrite IH by exact R.
  pose proof (existsb_dict_set k' k item d) as Y. unfold keys in Y.
  rewrite Y.
  apply negb_true_iff in X. rewrite X.
  apply String.eqb_neq in N. rewrite String.eqb_sym, N. reflexivity.
Qed.

Lemma bound_dict_set k (item : Item) d :
  bound_under (k, item) = true ->
  forallb bound_under d = true ->
  forallb bound_under (dict_set k item d) = true.
Proof.
  intros B. induction d as [|[k' v'] d IH]; [cbn; now rewrite B|].
  cbn [dict_set]. destruct (String.eqb_spec k k') as [->|N].
  - cbn [forallb]. intros [_ R]%andb_prop. now rewrite B, R.
  - cbn [forallb]. intros [X R]%andb_prop. now rewrite X, IH.
Qed.

Lemma for_each_invariant {A} (P : World D -> Prop) (l : list A) body :
  (forall x w, P w -> P (world_of (body x w))) ->
  forall w, P w -> P (world_of (for_each l body w)).
Proof.
  intros step. induction l as [|x l IH]; intros w Pw; [exact Pw|].
  rewrite for_each_cons.
  destruct (outcome (body x w)).
  - rewrite world_of_prepend. apply IH, step, Pw.
  - apply step, Pw.
Qed.

(** [pre_stage] keeps the read dictionary well bound; it starts empty,
    so it is well bound whenever the refresh cycle runs. *)
Lemma pre_stage_well_bound config (w : World D) :
  well_bound (_myTempReadDict (self w)) = true ->
  well_bound (_myTempReadDict (self (world_of (pre_stage config w)))) = true.
Proof.
  intros W. unfold pre_stage. rewrite bind_run.
  set (P := fun w : World D => well_bound (_myTempReadDict (self w)) = true).
  assert (P1 : P (world_of
    (for_each (query_nodes "pluggit_listen" config)
       (fun item =>
          pluggit_key <- attr_of item "pluggit_listen" ;;
          if dict_mem pluggit_key _modbusRegisterDic
          then set_self (set_read pluggit_key item)
          else log Warn (MsgInvalidKey pluggit_key)) w))).
  { apply (for_each_invariant P); [|exact W].
    clear. intros item [p d] Pw. unfold P in *.
    unfold attr_of, bind.
    destruct (dict_get "pluggit_listen" (attr item)) as [key|] eqn:A;
      [|exact Pw].
    cbn. destruct (dict_mem key _modbusRegisterDic); [|exact Pw].
    cbn in *. apply andb_prop in Pw as [N B].
    unfold well_bound. rewrite distinct_dict_set by exact N.
    rewrite bound_dict_set; trivial.
    unfold bound_under. cbn. rewrite A. apply String.eqb_refl. }
  destruct (outcome (for_each (query_nodes "pluggit_listen" config) _ w));
    [|exact P1].
  rewrite world_of_prepend.
  apply (for_each_invariant P); [|exact P1].
  clear. intros item [p d] Pw. unfold P in *.
  unfold attr_of, bind.
  destruct (dict_get "pluggit_send" (attr item)); exact Pw.
Qed.

End Configuration.

(** ** The events of the loop *)

Section LoopEvents.
Context {D : Type} `{T : ModbusTransport D}.

Lemma refresh_loop_run (w : World D) :
  refresh_loop w =
  for_each (keys (_myTempReadDict (self w))) refresh_param w.
Proof.
  unfold refresh_loop, bind, get_self.
  now destruct (for_each _ _ w) as [[r w1] t1].
Qed.

Lemma sleeps_app t u : sleeps (t ++ u) = sleeps t ++ sleeps u.
Proof. apply flat_map_app. Qed.

Lemma execs_only reads :
  forallb is_exec reads = true ->
  forallb loop_event reads = true /\ sleeps reads = [] /\
  publications reads = [].
Proof.
  induction reads as [|e reads IH]; [now repeat split|].
  cbn [forallb]. intros [X R]%andb_prop.
  destruct e; try discriminate X. destruct (IH R) as (A & B & C).
  unfold sleeps, publications in *. cbn. now rewrite A, B, C.
Qed.

Lemma publishes_only item vs :
  forallb loop_event (map (EvPublish item) vs) = true /\
  sleeps (map (EvPublish item) vs) = [].
Proof. induction vs as [|v vs IH]; [now split|exact IH]. Qed.

(** The reads of a parameter are requests only, drawn in order from the
    reads of its key. *)
Lemma poll_shape key a (d : D) :
  dict_get key _modbusRegisterDic = Some a ->
  forallb is_exec (snd (poll key a d)) = true /\
  (exists r rest, snd (poll key a d) = EvExec (single_read a) r :: rest) /\
  (forall rq, In rq (requests (snd (poll key a d))) ->
              In rq (reads_for key)).
Proof.
  intros G. unfold reads_for. rewrite G.
  unfold poll. destruct T as [? ? ex]. cbn [execute].
  destruct (is_temperature key);
    destruct (ex (single_read a) d) as [[[[|raw rest]| | |]|e] d1];
    cbn; try (split; [reflexivity|split; [eauto|tauto]]).
  destruct (ex (dual_read a) d1) as [[[regs| | |]|e] d2]; cbn;
    try (split; [reflexivity|split; [eauto|tauto]]).
  destruct (temperature_of regs) as [t|e]; cbn;
    (split; [reflexivity|split; [eauto|tauto]]).
Qed.

(** The events of one iteration: its reads, then, when it returns, what
    it publishes and its delay of 100 ms. *)
Lemma refresh_param_shape key (w : World D) :
  exists reads tail,
    events (refresh_param key w) = reads ++ tail /\
    forallb is_exec reads = true /\
    (forall rq, In rq (requests reads) -> In rq (reads_for key)) /\
    match outcome (refresh_param key w) with
    | Ok _ => exists item vs, tail = map (EvPublish item) vs ++ [EvSleep 100]
    | Raise _ => tail = []
    end.
Proof.
  rewrite refresh_param_closed_form. unfold iteration.
  destruct (dict_get key _modbusRegisterDic) as [a|] eqn:G;
    [|exists [], []; cbn; now repeat split].
  destruct (dict_get key (_myTempReadDict (self w))) as [item|];
    [|exists [], []; cbn; now repeat split].
  destruct (_Pluggit (self w)); [|exists [], []; cbn; now repeat split].
  destruct (poll_shape key a (dev w) G) as (E & _ & R).
  destruct (poll key a (dev w)) as [[[vs|e] d1] reads]; cbn [snd] in *.
  - exists reads, (map (EvPublish item) vs ++ [EvSleep 100]).
    cbn. repeat split; eauto.
  - exists reads, []. cbn. rewrite app_nil_r. now repeat split.
Qed.

Lemma refresh_param_kinds key (w : World D) :
  forallb loop_event (events (refresh_param key w)) = true.
Proof.
  destruct (refresh_param_shape key w) as (reads & tail & -> & E & _ & S).
  rewrite forallb_app. destruct (execs_only reads E) as (-> & _).
  destruct (outcome (refresh_param key w)).
  - destruct S as (item & vs & ->). rewrite forallb_app.
    now destruct (publishes_only item vs) as (-> & _).
  - now subst.
Qed.

Lemma refresh_param_sleeps key (w : World D) :
  sleeps (events (refresh_param key w)) =
  if is_ok (outcome (refresh_param key w)) then [100] else [].
Proof.
  destruct (refresh_param_shape key w) as (reads & tail & -> & E & _ & S).
  rewrite sleeps_app. destruct (execs_only reads E) as (_ & -> & _).
  destruct (outcome (refresh_param key w)).
  - destruct S as (item & vs & ->). rewrite sleeps_app.
    now destruct (publishes_only item vs) as (_ & ->).
  - now subst.
Qed.

Lemma refresh_param_requests key (w : World D) rq :
  In rq (requests (events (refresh_param key w))) -> In rq (reads_for key).
Proof.
  destruct (refresh_param_shape key w) as (reads & tail & -> & E & R & S).
  rewrite requests_app. intros [I|I]%in_app_or; [now apply R|].
  destruct (outcome (refresh_param key w)).
  - destruct S as (item & vs & ->).
    rewrite requests_app, requests_publish in I. destruct I.
  - subst. destruct I.
Qed.

Lemma loop_kinds l (w : World D) :
  forallb loop_event (events (for_each l refresh_param w)) = true.
Proof.
  revert w. induction l as [|x l IH]; intros w; [reflexivity|].
  rewrite for_each_cons.
  destruct (outcome (refresh_param x w)).
  - rewrite events_prepend, forallb_app, refresh_param_kinds. apply IH.
  - apply refresh_param_kinds.
Qed.

Lemma loop_events_quiet evs :
  forallb loop_event evs = true ->
  session_opens evs = [] /\ closes evs = [] /\ lock_events evs = [] /\
  filter is_log evs = [].
Proof.
  induction evs as [|e evs IH]; [now repeat split|].
  cbn [forallb]. intros [X R]%andb_prop.
  destruct (IH R) as (A & B & C & E).
  unfold session_opens, closes, lock_events in *.
  destruct e; try discriminate X; cbn; now rewrite ?A, ?B, ?C, ?E.
Qed.

(** A loop that returns: its requests and its delays. *)
Lemma loop_ok_requests l (w : World D) :
  outcome (for_each l refresh_param w) = Ok tt ->
  requests (events (for_each l refresh_param w)) = flat_map reads_for l /\
  sleeps (events (for_each l refresh_param w)) =
    repeat 100 (List.length l).
Proof.
  revert w. induction l as [|x l IH]; intros w O; [now split|].
  rewrite for_each_cons in O |- *.
  pose proof (refresh_param_sleeps x w) as S.
  destruct (outcome (refresh_param x w)) as [[]|e] eqn:R; [|discriminate O].
  rewrite outcome_prepend in O. rewrite !events_prepend.
  destruct (IH _ O) as (A & B).
  rewrite requests_app, sleeps_app, A, B, S. cbn [is_ok].
  destruct (refresh_param_ok x w R)
    as (a & item & raw & rest & vs & Ga & _ & _ & Rq & _).
  rewrite Rq. unfold reads_for at 2. cbn [flat_map]. unfold reads_for at 1.
  rewrite Ga. now split.
Qed.

(** A loop that raises at its iteration number [k]: every request came
    from one of the keys up to that one. *)
Lemma loop_failure_requests l (w : World D) n k rq :
  first_failure l w n = Some k ->
  In rq (requests (events (for_each l refresh_param w))) ->
  exists key, In key (firstn (S (k - n)) l) /\ In rq (reads_for key).
Proof.
  revert w n. induction l as [|x l IH]; intros w n F; [discriminate F|].
  cbn [first_failure] in F. rewrite for_each_cons.
  pose proof (refresh_param_requests x w rq) as P.
  destruct (refresh_param x w) as [[[[]|e] w1] t1];
    unfold outcome, events, world_of, prepend in *; cbn [fst snd] in *.
  - rewrite requests_app. intros [I|I]%in_app_or.
    + exists x. split; [left; reflexivity|exact (P I)].
    + destruct (IH w1 (S n) F I) as (key & K & Q).
      exists key. split; [|exact Q].
      assert (L : (S n <= k)%nat).
      { destruct (loop_failure _ _ _ _ F) as (? & ? & ? & ? & _ & L & _).
        lia. }
      replace (S (k - n)) with (S (S (k - S n))) by lia.
      cbn [firstn]. right. exact K.
  - injection F as <-. intros I. exists x.
    split; [left; reflexivity|exact (P I)].
Qed.

End LoopEvents.
(** ** The session of a cycle *)

Ltac settle I :=
  lazymatch type of I with
  | In _ [] => destruct I
  | In _ (_ :: _) =>
      destruct I as [I|I];
      [first [discriminate I|injection I as _ <-; reflexivity]|settle I]
  | In _ (_ ++ _) => apply in_app_or in I; destruct I as [I|I]; settle I
  | In _ (map _ _) =>
      apply in_map_iff in I; destruct I as (? & I & _); discriminate I
  end.

Section Sessions.
Context {D : Type} `{T : ModbusTransport D}.

(** [connect] in the disconnected state, run to its end. *)
Lemma connect_run (w : World D) :
  _is_connected (self w) = false ->
  let r := ModbusTcpClient (_host (self w)) (_port (self w)) (dev w) in
  connect w =
  (Ok VNone,
   {| self := if is_ok (fst r) then set_connected true (set_client (self w))
              else self w;
      dev := snd r |},
   connect_trace (_host (self w)) (_port (self w)) (fst r)).
Proof.
  intros C. open_world w T. cbn in C. subst. methods.
  unfold connect_trace, set_connected, set_client. crank.
  all: reflexivity.
Qed.

(** [disconnect], run to its end. *)
Lemma disconnect_run (w : World D) :
  disconnect w =
  (Ok tt, {| self := set_connected false (self w); dev := closed_device w |},
   disconnect_trace w).
Proof.
  open_world w T. methods.
  unfold disconnect_trace, closed_device, has_session, set_connected. crank.
  all: reflexivity.
Qed.

(** The start of a cycle, run to its end. *)
Lemma fresh_session_run (w : World D) :
  fresh_session w = (Ok VNone, session_world w, session_trace w).
Proof.
  open_world w T. methods.
  unfold session_world, session_trace, new_client, disconnect_trace,
    connect_trace, closed_device, has_session, set_connected, set_client.
  crank.
  all: reflexivity.
Qed.

(** The new session at the start of a cycle. *)
Lemma fresh_session_facts (w : World D) :
  List.length (session_opens (events (fresh_session w))) = 1%nat /\
  List.length (closes (events (fresh_session w))) =
    (if _is_connected (self w) && _Pluggit (self w) then 1%nat else 0%nat) /\
  lock_events (events (fresh_session w)) = [EvAcquire; EvRelease] /\
  sleeps (events (fresh_session w)) = [1000] /\
  requests (events (fresh_session w)) = [] /\
  ~ In (EvLog Debug MsgCycleTook) (events (fresh_session w)).
Proof.
  open_world w T. methods. unfold set_connected, set_client. crank.
  all: repeat split; try reflexivity.
  all: intros I; repeat (destruct I as [I|I]; [discriminate I|]); destruct I.
Qed.

Lemma fresh_session_fields (w : World D) :
  let p := self (world_of (fresh_session w)) in
  _host p = _host (self w) /\ _port p = _port (self w) /\
  _cycle p = _cycle (self w) /\ alive p = alive (self w) /\
  _myTempReadDict p = _myTempReadDict (self w) /\
  _myTempWriteDict p = _myTempWriteDict (self w).
Proof.
  open_world w T. methods. unfold set_connected, set_client. crank.
  all: repeat split; reflexivity.
Qed.

(** [_refresh_run], part by part. *)
Lemma _refresh_parts (w : World D) :
  outcome (_refresh w) = Ok tt /\
  world_of (_refresh w) =
    world_of (for_each (keys (_myTempReadDict (self w))) refresh_param
                       (world_of (fresh_session w))) /\
  events (_refresh w) =
    events (fresh_session w) ++
    events (for_each (keys (_myTempReadDict (self w))) refresh_param
                     (world_of (fresh_session w))) ++
    [match outcome (for_each (keys (_myTempReadDict (self w))) refresh_param
                             (world_of (fresh_session w))) with
     | Ok _ => EvLog Debug MsgCycleTook
     | Raise e => EvLog Error (MsgRefreshWentWrong e)
     end].
Proof. rewrite _refresh_run. now repeat split. Qed.

(** The events of a cycle: the start of the cycle, the events of the
    loop, none of which touches the session or the lock or writes a log
    line, and one closing log line. *)
Lemma _refresh_trace (w : World D) :
  exists loop closing,
    events (_refresh w) = session_trace w ++ loop ++ [closing] /\
    loop = events (refresh_loop (world_of (fresh_session w))) /\
    forallb loop_event loop = true /\
    closing =
      match outcome (refresh_loop (world_of (fresh_session w))) with
      | Ok _ => EvLog Debug MsgCycleTook
      | Raise e => EvLog Error (MsgRefreshWentWrong e)
      end.
Proof.
  destruct (_refresh_parts w) as (_ & _ & E).
  rewrite refresh_loop_run, fresh_session_dict.
  eexists. eexists. split; [|split; [reflexivity|split; [|reflexivity]]].
  - rewrite E, fresh_session_run. reflexivity.
  - apply loop_kinds.
Qed.

Lemma sum_repeat c n : fold_right Z.add 0 (repeat c n) = c * Z.of_nat n.
Proof.
  induction n as [|n IH]; [cbn; lia|].
  cbn [repeat fold_right]. rewrite IH. lia.
Qed.

(** Every event of the loop is an event of the iteration of one of its
    keys, run with the same plugin. *)
Lemma loop_iteration l (w : World D) ev :
  In ev (events (for_each l refresh_param w)) ->
  exists key w',
    In key l /\ self w' = self w /\
    In ev (events (refresh_param key w')) /\
    incl (events (refresh_param key w'))
         (events (for_each l refresh_param w)).
Proof.
  revert w. induction l as [|x l IH]; intros w; [intros []|].
  rewrite for_each_cons.
  destruct (outcome (refresh_param x w)).
  - rewrite events_prepend. intros [I|I]%in_app_or.
    + exists x, w. split; [left; reflexivity|]. split; [reflexivity|].
      split; [exact I|]. intros ev' J. apply in_or_app. left. exact J.
    + destruct (IH _ I) as (key & w' & K & S & J & N).
      exists key, w'. split; [right; exact K|].
      split; [rewrite S; apply refresh_param_self|].
      split; [exact J|]. intros ev' J'. apply in_or_app. right.
      apply N, J'.
  - unfold events at 1 3. cbn [snd]. intros I.
    exists x, w. split; [left; reflexivity|]. split; [reflexivity|].
    split; [exact I|]. intros ev' J. exact J.
Qed.

Lemma In_publications item v evs :
  In (item, v) (publications evs) <-> In (EvPublish item v) evs.
Proof.
  unfold publications. rewrite in_flat_map. split.
  - intros (e & I & J). destruct e; try (now destruct J).
    destruct J as [[= -> ->]|[]]. exact I.
  - intros I. exists (EvPublish item v). split; [exact I|left; reflexivity].
Qed.

(** An iteration that returns is one block: its reads and what it
    publishes, then its delay. *)
Lemma refresh_param_block key (w : World D) :
  outcome (refresh_param key w) = Ok tt ->
  iteration_block key (events (refresh_param key w)).
Proof.
  intros O.
  destruct (refresh_param_ok key w O)
    as (a & item & raw & rest & vs & Ga & _ & _ & R & _).
  destruct (refresh_param_shape key w) as (reads & tail & E & X & _ & S).
  rewrite O in S. destruct S as (it & ws & ->).
  exists (reads ++ map (EvPublish it) ws).
  rewrite E, <- app_assoc. split; [reflexivity|].
  rewrite E, !requests_app, requests_publish in R. cbn [requests] in R.
  rewrite sleeps_app, requests_app, requests_publish.
  destruct (execs_only reads X) as (_ & -> & _).
  destruct (publishes_only it ws) as (_ & ->).
  split; [reflexivity|].
  unfold reads_for. rewrite Ga, <- R. cbn. now rewrite !app_nil_r.
Qed.

(** A loop that returns is the blocks of its keys, one after the other. *)
Lemma loop_blocks l (w : World D) :
  outcome (for_each l refresh_param w) = Ok tt ->
  exists blocks,
    events (for_each l refresh_param w) = List.concat blocks /\
    Forall2 iteration_block l blocks.
Proof.
  revert w. induction l as [|x l IH]; intros w O.
  - exists []. split; [reflexivity|constructor].
  - rewrite for_each_cons in O |- *.
    pose proof (refresh_param_block x w) as B.
    destruct (outcome (refresh_param x w)) as [[]|e]; [|discriminate O].
    rewrite outcome_prepend in O. rewrite events_prepend.
    destruct (IH _ O) as (blocks & -> & F).
    exists (events (refresh_param x w) :: blocks).
    split; [reflexivity|]. constructor; [exact (B eq_refl)|exact F].
Qed.

(** A request that raised ended its iteration with its exception. *)
Lemma refresh_param_raised key (w : World D) rq e :
  In (EvExec rq (Raise e)) (events (refresh_param key w)) ->
  outcome (refresh_param key w) = Raise e.
Proof.
  rewrite refresh_param_closed_form. unfold iteration.
  destruct (dict_get key _modbusRegisterDic) as [a|]; [|intros []].
  destruct (dict_get key (_myTempReadDict (self w))) as [item|]; [|intros []].
  destruct (_Pluggit (self w)); [|intros []].
  unfold poll. destruct T as [? ? ex]. cbn [execute].
  destruct (is_temperature key);
    destruct (ex (single_read a) (dev w)) as [[[[|raw rest]| | |]|e1] d1];
    [| destruct (ex (dual_read a) d1) as [[[regs| | |]|e2] d2];
       [destruct (temperature_of regs) as [t|e3]| | | |]
     | | | | | | | | | | ];
    unfold events, outcome; cbn [fst snd app map]; intros I; settle I.
Qed.

(** ... and with it the loop. *)
Lemma loop_raised l (w : World D) rq e :
  In (EvExec rq (Raise e)) (events (for_each l refresh_param w)) ->
  outcome (for_each l refresh_param w) = Raise e.
Proof.
  revert w. induction l as [|x l IH]; intros w; [intros []|].
  rewrite for_each_cons.
  pose proof (refresh_param_raised x w rq e) as P.
  destruct (outcome (refresh_param x w)) as [[]|e1].
  - rewrite events_prepend, outcome_prepend.
    intros [I|I]%in_app_or; [discriminate (P I)|exact (IH _ I)].
  - unfold events at 1, outcome at 1. cbn [fst snd]. exact P.
Qed.

(** A loop whose iteration number [k] is the first to raise: the loop
    raises the exception which the iteration of the key at index [k]
    raised, run after the iterations before it. *)
Lemma loop_failure_at l (w : World D) n k :
  first_failure l w n = Some k ->
  exists key e,
    nth_error l (k - n) = Some key /\
    outcome (refresh_param key
               (world_of (for_each (firstn (k - n) l) refresh_param w))) =
      Raise e /\
    outcome (for_each l refresh_param w) = Raise e.
Proof.
  revert w n. induction l as [|x l IH]; intros w n F; [discriminate F|].
  pose proof (loop_failure _ _ _ _ F) as (pre & ? & ? & ? & _ & L & _).
  cbn [first_failure] in F. rewrite for_each_cons.
  destruct (refresh_param x w) as [[[[]|e] w1] t1] eqn:R.
  - destruct pre as [|? pre].
    { exfalso.
      destruct (loop_failure _ _ _ _ F) as (pre' & ? & ? & ? & _ & L' & _).
      cbn [List.length] in L. lia. }
    destruct (IH w1 (S n) F) as (key & e & Nk & Ok' & Ol).
    cbn [List.length] in L.
    replace (k - n)%nat with (S (k - S n)) by lia.
    exists key, e. cbn [nth_error firstn]. split; [exact Nk|].
    rewrite for_each_cons, R.
    unfold outcome, world_of, events, prepend in *. cbn [fst snd] in *.
    split; [exact Ok'|exact Ol].
  - injection F as <-. rewrite Nat.sub_diag. exists x, e.
    cbn [nth_error firstn for_each]. unfold ret, world_of at 1.
    cbn [fst snd]. rewrite R. now split.
Qed.

Lemma In_requests rq r evs : In (EvExec rq r) evs -> In rq (requests evs).
Proof.
  intros I. unfold requests. apply in_flat_map.
  exists (EvExec rq r). split; [exact I|left; reflexivity].
Qed.


End Sessions.


(** ** The properties of the specification *)

Section Claims.
Context {D : Type} `{T : ModbusTransport D}.

Lemma published_to_quiet item t : publications t = [] -> published_to item t = [].
Proof. unfold published_to. now intros ->. Qed.

(** One read of an integer parameter, run to its end. *)
Lemma integer_param_run key a item raw rest d' (w : World D) :
  dict_get key _modbusRegisterDic = Some a ->
  is_temperature key = false ->
  dict_get key (_myTempReadDict (self w)) = Some item ->
  _Pluggit (self w) = true ->
  execute (single_read a) (dev w) = (Ok (RegistersResponse (raw :: rest)), d') ->
  publications (events (refresh_param key w)) =
  map (pair item) (translation key raw).
Proof.
  intros Ga F Gi C E.
  rewrite refresh_param_closed_form. unfold iteration, poll.
  rewrite Ga, Gi, C, E, F. unfold events. cbn [snd app].
  change (EvExec ?r ?x :: ?l) with ([EvExec r x] ++ l).
  now rewrite !publications_app, publications_publish, app_nil_r.
Qed.

(** C1, as amended: an iteration of the refresh loop that returns has
    issued one single-register read at the address of its parameter and,
    for a float parameter (T1 to T4), after it one two-register read at
    the same address with the secondary station id 22; an integer
    parameter gets the single-register read only. *)
Theorem refresh_param_reads key (w : World D) :
  outcome (refresh_param key w) = Ok tt ->
  exists a,
    dict_get key _modbusRegisterDic = Some a /\
    requests (events (refresh_param key w)) =
    if is_temperature key then [single_read a; dual_read a]
    else [single_read a].
Proof.
  intros O.
  destruct (refresh_param_ok key w O)
    as (a & item & raw & rest & vs & Ga & _ & _ & R & _).
  exists a. split; [exact Ga|]. rewrite R. now destruct (is_temperature key).
Qed.

(** C2, as amended: in a refresh cycle whose loop raises no exception,
    every configured read parameter was read, and its bound item got
    exactly one value, except that the item of UnitMode got none when
    the raw value is neither 8 nor 4 and the item of BypassActualState
    got none when the raw value is neither 255 nor 0; no item got more
    than one. *)
Theorem refresh_publishes (w : World D) key item :
  well_bound (_myTempReadDict (self w)) = true ->
  outcome (refresh_loop (world_of (fresh_session w))) = Ok tt ->
  In (key, item) (_myTempReadDict (self w)) ->
  exists a raw rest,
    dict_get key _modbusRegisterDic = Some a /\
    In (EvExec (single_read a) (Ok (RegistersResponse (raw :: rest))))
       (events (_refresh w)) /\
    List.length (published_to item (events (_refresh w))) =
    if unmapped key raw then 0%nat else 1%nat.
Proof.
  intros [N B]%andb_prop O I.
  rewrite refresh_loop_run, fresh_session_dict in O.
  rewrite _refresh_run. cbv zeta. unfold events at 1 4. cbn [snd].
  set (s := fresh_session w) in *.
  set (l := for_each _ _ (world_of s)) in *.
  assert (B1 : forallb bound_under (_myTempReadDict (self (world_of s))) = true)
    by (unfold s; rewrite fresh_session_dict; exact B).
  assert (G : dict_get key (_myTempReadDict (self (world_of s))) = Some item).
  { unfold s. rewrite fresh_session_dict.
    apply In_dict_get; [apply distinct_NoDup; exact N|exact I]. }
  assert (K : In key (keys (_myTempReadDict (self w)))).
  { change key with (fst (key, item)). apply in_map. exact I. }
  destruct (loop_ok _ _ N B1 O key item K G) as (a & raw & rest & Ga & Iv & L).
  exists a, raw, rest. split; [exact Ga|]. split.
  - apply in_or_app. right. apply in_or_app. left. exact Iv.
  - rewrite !published_to_app.
    rewrite (published_to_quiet item (events s)) by apply fresh_session_quiet.
    rewrite (published_to_quiet item [_]);
      [|now destruct (outcome l)].
    rewrite app_nil_r. exact L.
Qed.

Ltac asked :=
  match goal with
  | |- context [match ?f ?rq ?d with _ => _ end] =>
      is_var f; is_var d;
      destruct (f rq d) as [[[[|? ?]| | |]|?] ?] eqn:?
  end.

Ltac crank_eq := repeat (cbn; first [asked|answer]); cbn.

(** C3: the command "activatePowerBoost", triggered from outside the
    plugin and run to its end, with [true] writes 4 to UnitMode, sleeps
    100 ms, writes 4 to FanSpeedLevel, then reads UnitMode and
    FanSpeedLevel back; with [false] it writes 8 to UnitMode and nothing
    to FanSpeedLevel, reads UnitMode back, sleeps 100 ms and reads
    FanSpeedLevel back. Every write carries the two words (value, 0).
    These requests are what the transport executed, one after the other
    from the device as it was: their answers are the answers in the
    events, and the device is left as the last of them left it. *)
Theorem power_boost_sequence (b : bool) (trigger : Trigger) (w : World D) :
  caller trigger <> "Pluggit" ->
  dict_get "pluggit_send" (attr (node trigger)) = Some "activatePowerBoost" ->
  outcome (update_item (VBool b) trigger w) = Ok tt ->
  if b then
    exists r1 r2 r3 r4,
      replay [WriteMultipleRegistersRequest 168 [4; 0] [];
              WriteMultipleRegistersRequest 324 [4; 0] [];
              single_read 168; single_read 324] (dev w) =
      Some ([r1; r2; r3; r4],
            dev (world_of (update_item (VBool b) trigger w))) /\
      without_log (events (update_item (VBool b) trigger w)) =
      [EvExec (WriteMultipleRegistersRequest 168 [4; 0] []) (Ok r1);
       EvSleep 100;
       EvExec (WriteMultipleRegistersRequest 324 [4; 0] []) (Ok r2);
       EvExec (single_read 168) (Ok r3);
       EvExec (single_read 324) (Ok r4)]
  else
    exists r1 r2 r3,
      replay [WriteMultipleRegistersRequest 168 [8; 0] [];
              single_read 168; single_read 324] (dev w) =
      Some ([r1; r2; r3],
            dev (world_of (update_item (VBool b) trigger w))) /\
      without_log (events (update_item (VBool b) trigger w)) =
      [EvExec (WriteMultipleRegistersRequest 168 [8; 0] []) (Ok r1);
       EvExec (single_read 168) (Ok r2);
       EvSleep 100;
       EvExec (single_read 324) (Ok r3)].
Proof.
  intros NE A. apply String.eqb_neq in NE.
  unfold update_item. rewrite NE. unfold dict_mem, attr_of. rewrite A.
  cbn [negb].
  open_world w T.
  destruct b; methods; unfold world_of;
    match goal with
    | |- context [replay ?l ?d] => remember (replay l d) as sent eqn:S
    end;
    crank_eq; try discriminate; intros _; subst sent.
  all: repeat eexists.
  all: cbn; repeat (match goal with E : _ = _ |- _ => rewrite E end; cbn).
  all: reflexivity.
Qed.




(** C5, as amended: at the UnitMode parameter, a raw register value of 8
    publishes the label "Woche" to the bound item, a raw value of 4 the
    label "Manuell", and any other raw value publishes nothing. *)
Theorem unit_mode_labels (w : World D) item raw rest d' :
  dict_get "prmRamIdxUnitMode" (_myTempReadDict (self w)) = Some item ->
  _Pluggit (self w) = true ->
  execute (single_read 168) (dev w) =
    (Ok (RegistersResponse (raw :: rest)), d') ->
  publications (events (refresh_param "prmRamIdxUnitMode" w)) =
  if raw =? 8 then [(item, VStr "Woche")]
  else if raw =? 4 then [(item, VStr "Manuell")]
  else [].
Proof.
  intros G C E.
  rewrite (integer_param_run "prmRamIdxUnitMode" 168 item raw rest d' w eq_refl eq_refl G C E).
  unfold translation. cbn.
  now destruct (raw =? 8), (raw =? 4).
Qed.

(** C6, as amended: at the BypassActualState parameter, a raw register
    value of 255 publishes the label "geöffnet" to the bound item, a raw
    value of 0 the label "geschlossen", and the raw values 1, 32 and 64
    publish nothing. *)
Theorem bypass_labels (w : World D) item raw rest d' :
  dict_get "prmRamIdxBypassActualState" (_myTempReadDict (self w))
    = Some item ->
  _Pluggit (self w) = true ->
  execute (single_read 198) (dev w) =
    (Ok (RegistersResponse (raw :: rest)), d') ->
  let published :=
    publications (events (refresh_param "prmRamIdxBypassActualState" w)) in
  (raw = 255 -> published = [(item, VStr "geöffnet")]) /\
  (raw = 0 -> published = [(item, VStr "geschlossen")]) /\
  (raw = 1 \/ raw = 32 \/ raw = 64 -> published = []).
Proof.
  intros G C E published. unfold published.
  rewrite (integer_param_run "prmRamIdxBypassActualState" 198 item raw rest d' w eq_refl eq_refl G C E).
  unfold translation. cbn.
  repeat split; [intros ->|intros ->|intros [->|[->| ->]]]; reflexivity.
Qed.

(** C7: at the WeekProgramNumber parameter, a raw register value [n]
    from 0 to 10 publishes [n + 1] to the bound item, and nothing else. *)
Theorem week_program_one_based (w : World D) item n rest d' :
  0 <= n <= 10 ->
  dict_get "prmNumOfWeekProgram" (_myTempReadDict (self w)) = Some item ->
  _Pluggit (self w) = true ->
  execute (single_read 466) (dev w) =
    (Ok (RegistersResponse (n :: rest)), d') ->
  publications (events (refresh_param "prmNumOfWeekProgram" w)) =
  [(item, VInt (n + 1))].
Proof.
  intros _ G C E.
  now rewrite (integer_param_run "prmNumOfWeekProgram" 466 item n rest d' w eq_refl eq_refl G C E).
Qed.

(** C8: a notification whose originator is the plugin itself does
    nothing: no event (no write, no read, no log line), and the plugin
    and the device are as before. *)
Theorem update_item_self_originated value trigger (w : World D) :
  caller trigger = "Pluggit" ->
  update_item value trigger w = (Ok tt, w, []).
Proof. intros E. unfold update_item. now rewrite E. Qed.

(** C9: in the connected state [connect] returns at once: it opens no
    session and changes nothing, so two calls in a row open none, which
    is at most one. *)
Theorem connect_idempotent (w : World D) :
  _is_connected (self w) = true ->
  connect w = (Ok (VBool true), w, []) /\
  (connect ;; connect) w = (Ok (VBool true), w, []) /\
  (List.length (session_opens (events ((connect ;; connect) w))) <= 1)%nat.
Proof.
  intros E.
  assert (C : connect w = (Ok (VBool true), w, [])).
  { unfold connect, bind, get_self. rewrite E. reflexivity. }
  assert (C2 : (connect ;; connect) w = (Ok (VBool true), w, [])).
  { rewrite bind_run, C. unfold outcome, events, world_of. cbn [fst snd].
    rewrite C. reflexivity. }
  repeat split; trivial. rewrite C2. cbn. lia.
Qed.

(** The temperature block, from the answer to its read on. *)
Lemma read_temperature_run a item regs d' (w : World D) :
  _Pluggit (self w) = true ->
  execute (dual_read a) (dev w) = (Ok (RegistersResponse regs), d') ->
  publications (events (read_temperature a item w)) =
  match temperature_of regs with
  | Ok t => [(item, t)]
  | Raise _ => []
  end.
Proof.
  intros C E. open_world w T. unfold dual_read in E. cbn in C, E. subst.
  unfold temperature_of. methods. cbn. rewrite E.
  crank; reflexivity.
Qed.

(** The bit pattern 0x41BBA5E3 (the words 0x41BB and 0xA5E3) is the
    binary32 number 12297699 * 2^-19, which is the one nearest to 23.456:
    it has 24 significant bits and is within half a unit in the last
    place of 23456/1000. *)
Lemma pattern_of_23_456 :
  16827 * 65536 + 42467 = 1102816739 /\
  PyFloat.binary32_of_bits 1102816739 = S754_finite false 12297699 (-19) /\
  2 ^ 23 <= 12297699 < 2 ^ 24 /\
  2 * Z.abs (12297699 * 1000 - 23456 * 2 ^ 19) <= 1000.
Proof. vm_compute. repeat split; discriminate. Qed.

(** The binary64 number 6603402953631990 * 2^-48 (0x403775C28F5C28F6) is
    the one nearest to 23.46: it has 53 significant bits and is within
    half a unit in the last place of 2346/100. *)
Lemma value_of_23_46 :
  PyFloat.double_of_decimal false 2346 100 =
    S754_finite false 6603402953631990 (-48) /\
  2 ^ 52 <= 6603402953631990 < 2 ^ 53 /\
  2 * Z.abs (6603402953631990 * 100 - 2346 * 2 ^ 48) <= 100.
Proof. vm_compute. repeat split; discriminate. Qed.

(** C10: two 16-bit registers whose big-endian concatenation is the bit
    pattern 0x41BBA5E3, the binary32 number nearest to 23.456, decode and
    round to the Python float 23.46, the binary64 number
    6603402953631990 * 2^-48, and that is the value which the
    temperature block publishes. *)
Theorem float_23_456_rounds_to_23_46 a item hi lo d' (w : World D) :
  0 <= hi < 65536 ->
  0 <= lo < 65536 ->
  hi * 65536 + lo = 1102816739 ->
  _Pluggit (self w) = true ->
  execute (dual_read a) (dev w) = (Ok (RegistersResponse [hi; lo]), d') ->
  temperature_of [hi; lo] =
    Ok (VFloat (S754_finite false 6603402953631990 (-48))) /\
  publications (events (read_temperature a item w)) =
    [(item, VFloat (S754_finite false 6603402953631990 (-48)))].
Proof.
  intros Hh Hl B C E.
  assert (hi = 16827) by lia. assert (lo = 42467) by lia. subst hi lo.
  assert (X : temperature_of [16827; 42467] =
              Ok (VFloat (S754_finite false 6603402953631990 (-48))))
    by (vm_compute; reflexivity).
  split; [exact X|].
  now rewrite (read_temperature_run a item [16827; 42467] d' w C E), X.
Qed.

End Claims.

(** ** Runs against the simulated unit *)

Module Runs.
Import Simulation.

(** C1 fails as stated: the iteration of T1 returns normally and has
    issued both reads, the single-register one and then the
    two-register one, not exactly one read. *)
Lemma refresh_reads_temperature_twice :
  outcome (refresh_param "prmRamIdxT1" ready) = Ok tt /\
  requests (events (refresh_param "prmRamIdxT1" ready)) =
    [single_read 133; dual_read 133] /\
  List.length
    (filter is_read (requests (events (refresh_param "prmRamIdxT1" ready))))
  <> 1%nat.
Proof. vm_compute. repeat split. discriminate. Qed.

Lemma refresh_param_reads_witness :
  exists a,
    dict_get "prmRamIdxT1" _modbusRegisterDic = Some a /\
    requests (events (refresh_param "prmRamIdxT1" ready)) =
    [single_read a; dual_read a].
Proof.
  apply (refresh_param_reads "prmRamIdxT1" ready).
  vm_compute. reflexivity.
Defined.

(** C2 fails as stated: with UnitMode reading 2 the cycle raises no
    exception, yet the item bound to UnitMode gets no value at all. *)
Lemma refresh_unit_mode_unpublished :
  let w := installed (healthy 2 255) in
  outcome (refresh_loop (world_of (fresh_session w))) = Ok tt /\
  In ("prmRamIdxUnitMode", unitMode) (_myTempReadDict (self w)) /\
  published_to unitMode (events (_refresh w)) = [] /\
  List.length (published_to unitMode (events (_refresh w))) <> 1%nat.
Proof.
  cbv zeta. split; [now vm_compute|]. split; [left; reflexivity|].
  split; [now vm_compute|]. vm_compute. discriminate.
Qed.

Lemma refresh_publishes_witness :
  exists a raw rest,
    dict_get "prmRamIdxT1" _modbusRegisterDic = Some a /\
    In (EvExec (single_read a) (Ok (RegistersResponse (raw :: rest))))
       (events (_refresh ready)) /\
    List.length (published_to t1 (events (_refresh ready))) =
    if unmapped "prmRamIdxT1" raw then 0%nat else 1%nat.
Proof.
  apply (refresh_publishes ready "prmRamIdxT1" t1).
  - vm_compute. reflexivity.
  - vm_compute. reflexivity.
  - right. left. reflexivity.
Defined.

Lemma power_boost_sequence_witness :
  (exists r1 r2 r3 r4,
     replay [WriteMultipleRegistersRequest 168 [4; 0] [];
             WriteMultipleRegistersRequest 324 [4; 0] [];
             single_read 168; single_read 324] (dev ready) =
     Some ([r1; r2; r3; r4],
           dev (world_of (update_item (VBool true) (from_user boost) ready)))
     /\
     without_log (events (update_item (VBool true) (from_user boost) ready)) =
     [EvExec (WriteMultipleRegistersRequest 168 [4; 0] []) (Ok r1);
      EvSleep 100;
      EvExec (WriteMultipleRegistersRequest 324 [4; 0] []) (Ok r2);
      EvExec (single_read 168) (Ok r3);
      EvExec (single_read 324) (Ok r4)]) /\
  (exists r1 r2 r3,
     replay [WriteMultipleRegistersRequest 168 [8; 0] [];
             single_read 168; single_read 324] (dev ready) =
     Some ([r1; r2; r3],
           dev (world_of (update_item (VBool false) (from_user boost) ready)))
     /\
     without_log (events (update_item (VBool false) (from_user boost) ready)) =
     [EvExec (WriteMultipleRegistersRequest 168 [8; 0] []) (Ok r1);
      EvExec (single_read 168) (Ok r2);
      EvSleep 100;
      EvExec (single_read 324) (Ok r3)]).
Proof.
  split.
  - apply (power_boost_sequence true (from_user boost) ready).
    + discriminate.
    + reflexivity.
    + vm_compute. reflexivity.
  - apply (power_boost_sequence false (from_user boost) ready).
    + discriminate.
    + reflexivity.
    + vm_compute. reflexivity.
Defined.


(** C5 fails as stated: the label published for the raw value 8 is
    "Woche", not "week-program-active". *)
Lemma unit_mode_label_is_german :
  execute (single_read 168) (dev ready) =
    (Ok (RegistersResponse [8]), healthy 8 255) /\
  publications (events (refresh_param "prmRamIdxUnitMode" ready)) =
    [(unitMode, VStr "Woche")] /\
  publications (events (refresh_param "prmRamIdxUnitMode" ready)) <>
    [(unitMode, VStr "week-program-active")].
Proof. vm_compute. repeat split. discriminate. Qed.

Lemma unit_mode_labels_witness :
  publications (events (refresh_param "prmRamIdxUnitMode" ready)) =
  [(unitMode, VStr "Woche")].
Proof.
  apply (unit_mode_labels ready unitMode 8 [] (healthy 8 255)).
  - reflexivity.
  - reflexivity.
  - reflexivity.
Defined.

(** C6 fails as stated: the label published for the raw value 255 is
    "geöffnet", not "open". *)
Lemma bypass_label_is_german :
  execute (single_read 198) (dev ready) =
    (Ok (RegistersResponse [255]), healthy 8 255) /\
  publications (events (refresh_param "prmRamIdxBypassActualState" ready)) =
    [(bypassState, VStr "geöffnet")] /\
  publications (events (refresh_param "prmRamIdxBypassActualState" ready)) <>
    [(bypassState, VStr "open")].
Proof. vm_compute. repeat split. discriminate. Qed.

Lemma bypass_labels_witness :
  let published :=
    publications (events (refresh_param "prmRamIdxBypassActualState" ready)) in
  (255 = 255 -> published = [(bypassState, VStr "geöffnet")]) /\
  (255 = 0 -> published = [(bypassState, VStr "geschlossen")]) /\
  (255 = 1 \/ 255 = 32 \/ 255 = 64 -> published = []).
Proof.
  apply (bypass_labels ready bypassState 255 [] (healthy 8 255)).
  - reflexivity.
  - reflexivity.
  - reflexivity.
Defined.

Lemma week_program_one_based_witness :
  publications (events (refresh_param "prmNumOfWeekProgram" ready)) =
  [(weekProgram, VInt (4 + 1))].
Proof.
  apply (week_program_one_based ready weekProgram 4 [] (healthy 8 255)).
  - lia.
  - reflexivity.
  - reflexivity.
  - reflexivity.
Defined.

Lemma update_item_self_originated_witness :
  update_item (VBool true) (from_plugin boost) ready = (Ok tt, ready, []).
Proof.
  apply (update_item_self_originated (VBool true) (from_plugin boost) ready).
  reflexivity.
Defined.

Lemma connect_idempotent_witness :
  connect connected = (Ok (VBool true), connected, []) /\
  (connect ;; connect) connected = (Ok (VBool true), connected, []) /\
  (List.length (session_opens (events ((connect ;; connect) connected)))
   <= 1)%nat.
Proof.
  apply (connect_idempotent connected). reflexivity.
Defined.

(** 0x41BB and 0xA5E3 are the two halves of 23.456 as a binary32. *)
Lemma float_23_456_rounds_to_23_46_witness :
  temperature_of [16827; 42467] =
    Ok (VFloat (S754_finite false 6603402953631990 (-48))) /\
  publications (events (read_temperature 133 t1 ready)) =
    [(t1, VFloat (S754_finite false 6603402953631990 (-48)))].
Proof.
  apply (float_23_456_rounds_to_23_46
           133 t1 16827 42467 (healthy 8 255) ready).
  - lia.
  - lia.
  - reflexivity.
  - reflexivity.
  - reflexivity.
Defined.

End Runs.

(** * Further properties *)

(** ** The connection manager *)

Section Connection.
Context {D : Type} `{T : ModbusTransport D}.

(** X1: [connect] in the disconnected state never raises and returns
    [None]. Its events are, in this order: the lock is acquired, the
    client is built, once, while the lock is held, and the lock is
    released, whatever the constructor did; when it raised, the
    exception is logged as an error before the release. The device is as
    the constructor left it, and the plugin is connected afterwards
    exactly when the constructor did not raise. *)
Theorem connect_when_disconnected (w : World D) :
  _is_connected (self w) = false ->
  let host := _host (self w) in
  let port := _port (self w) in
  let r := fst (ModbusTcpClient host port (dev w)) in
  outcome (connect w) = Ok VNone /\
  events (connect w) =
    [EvAcquire; EvLog Info (MsgConnecting host port);
     EvNewClient host port r]
    ++ match r with
       | Ok _ => [EvRelease; EvLog Info (MsgConnected host port);
                  EvLog Info MsgConnectionTook]
       | Raise e => [EvLog Error (MsgCouldNotConnect host port e);
                     EvRelease]
       end /\
  dev (world_of (connect w)) = snd (ModbusTcpClient host port (dev w)) /\
  _is_connected (self (world_of (connect w))) = is_ok r /\
  _Pluggit (self (world_of (connect w))) = is_ok r || _Pluggit (self w).
Proof.
  intros C. open_world w T. cbn in C. subst. methods. crank.
  all: repeat split; reflexivity.
Qed.

(** X2: [disconnect] never raises, also when closing the session
    raises; it closes the session exactly when the plugin was connected,
    and afterwards the plugin is disconnected and otherwise as before. *)
Theorem disconnect_always (w : World D) :
  let had := _is_connected (self w) && _Pluggit (self w) in
  outcome (disconnect w) = Ok tt /\
  self (world_of (disconnect w)) = set_connected false (self w) /\
  closes (events (disconnect w)) =
    (if had then [EvClose (fst (close (dev w)))] else []) /\
  dev (world_of (disconnect w)) =
    (if had then snd (close (dev w)) else dev w).
Proof.
  open_world w T. methods. unfold set_connected. crank.
  all: repeat split; reflexivity.
Qed.

(** X3: a second [disconnect] in a row closes nothing and changes
    nothing: it only writes its log line. Two calls in a row close the
    session at most once. *)
Theorem disconnect_idempotent (w : World D) :
  disconnect (world_of (disconnect w)) =
    (Ok tt, world_of (disconnect w), [EvLog Info MsgDisconnectTook]) /\
  (List.length (closes (events ((disconnect ;; disconnect) w))) <= 1)%nat.
Proof.
  open_world w T. methods. unfold set_connected. crank.
  all: split; [reflexivity|cbn; lia].
Qed.

(** X4: constructing the plugin never raises and leaves it
    disconnected. It does not assign the two dictionaries, which belong
    to the class: the new instance has them as the class had them, so an
    instance made after a [pre_stage] starts with the bindings made so
    far. It connects and disconnects once: one client is built under the
    lock and, when the constructor did not raise, the session is closed
    again at once. *)
Theorem init_leaves_disconnected host port cycle reads writes (d : D) :
  let x := __init__ host port cycle reads writes d in
  let r := ModbusTcpClient host port d in
  outcome x = Ok tt /\
  _is_connected (self (world_of x)) = false /\
  _Pluggit (self (world_of x)) = is_ok (fst r) /\
  _myTempReadDict (self (world_of x)) = reads /\
  _myTempWriteDict (self (world_of x)) = writes /\
  events x =
    connect_trace host port (fst r)
    ++ (if is_ok (fst r) then [EvClose (fst (close (snd r)))] else [])
    ++ [EvLog Info MsgDisconnectTook] /\
  dev (world_of x) = (if is_ok (fst r) then snd (close (snd r)) else snd r).
Proof.
  destruct T as [? ? ?]. unfold __init__, new_plugin, connect_trace. methods.
  unfold set_connected, set_client. crank.
  all: repeat split; reflexivity.
Qed.

End Connection.

(** ** Configuration parsing *)

Section Dictionaries.
Context {V : Type}.

Lemma dict_get_set_same k (v : V) d : dict_get k (dict_set k v d) = Some v.
Proof.
  induction d as [|[k' v'] d IH]; cbn; [now rewrite String.eqb_refl|].
  destruct (String.eqb_spec k k') as [->|N]; cbn.
  - now rewrite String.eqb_refl.
  - apply String.eqb_neq in N. now rewrite N.
Qed.

Lemma dict_get_set_other k k' (v : V) d :
  k' <> k -> dict_get k (dict_set k' v d) = dict_get k d.
Proof.
  intros N. induction d as [|[k2 v2] d IH]; cbn.
  - apply not_eq_sym, String.eqb_neq in N. now rewrite N.
  - destruct (String.eqb_spec k' k2) as [->|N2]; cbn.
    + apply not_eq_sym, String.eqb_neq in N. now rewrite N.
    + now rewrite IH.
Qed.

Lemma forallb_keys_dict_set (f : string -> bool) k (v : V) d :
  f k = true -> forallb f (keys d) = true ->
  forallb f (keys (dict_set k v d)) = true.
Proof.
  intros F. unfold keys.
  induction d as [|[k' v'] d IH]; cbn [dict_set map fst forallb].
  - now rewrite F.
  - destruct (String.eqb_spec k k') as [->|_]; cbn [map fst forallb].
    + trivial.
    + intros [X R]%andb_prop. now rewrite X, IH.
Qed.

End Dictionaries.

Section PreStage.
Context {D : Type} `{T : ModbusTransport D}.

Lemma listeners_run l (w : World D) :
  Forall (fun item => dict_mem "pluggit_listen" (attr item) = true) l ->
  for_each l (fun item =>
    pluggit_key <- attr_of item "pluggit_listen" ;;
    if dict_mem pluggit_key _modbusRegisterDic
    then set_self (set_read pluggit_key item)
    else log Warn (MsgInvalidKey pluggit_key)) w =
  (Ok tt,
   {| self := fold_left install_listener l (self w); dev := dev w |},
   map (fun k => EvLog Warn (MsgInvalidKey k))
       (flat_map (fun item =>
          match dict_get "pluggit_listen" (attr item) with
          | Some k => if dict_mem k _modbusRegisterDic then [] else [k]
          | None => []
          end) l)).
Proof.
  intros F. revert w. induction F as [|item l A F IH]; intros [p d].
  - reflexivity.
  - cbn [for_each fold_left flat_map]. unfold bind at 1.
    unfold dict_mem in A. unfold install_listener at 2.
    unfold attr_of, bind, ret, set_self, log, emit.
    destruct (dict_get "pluggit_listen" (attr item)) as [k|]; [|discriminate A].
    destruct (dict_mem k _modbusRegisterDic); cbn [self dev];
      rewrite IH; reflexivity.
Qed.

Lemma senders_run l (w : World D) :
  Forall (fun item => dict_mem "pluggit_send" (attr item) = true) l ->
  for_each l (fun item =>
    pluggit_sendKey <- attr_of item "pluggit_send" ;;
    set_self (set_write pluggit_sendKey item) ;;
    emit (EvAddTrigger item)) w =
  (Ok tt,
   {| self := fold_left install_sender l (self w); dev := dev w |},
   map EvAddTrigger l).
Proof.
  intros F. revert w. induction F as [|item l A F IH]; intros [p d].
  - reflexivity.
  - cbn [for_each fold_left map]. unfold bind at 1.
    unfold dict_mem in A. unfold install_sender at 2.
    unfold attr_of, bind, ret, set_self, emit.
    destruct (dict_get "pluggit_send" (attr item)) as [k|]; [|discriminate A].
    cbn [self dev]. rewrite IH. reflexivity.
Qed.

Lemma query_nodes_have a config :
  Forall (fun item => dict_mem a (attr item) = true) (query_nodes a config).
Proof.
  apply Forall_forall. intros item I.
  unfold query_nodes in I. now apply filter_In in I.
Qed.

(** [pre_stage] does what the two folds say, and never raises. *)
Lemma pre_stage_closed_form config (w : World D) :
  pre_stage config w =
  (Ok tt,
   {| self := fold_left install_sender (query_nodes "pluggit_send" config)
                (fold_left install_listener
                           (query_nodes "pluggit_listen" config) (self w));
      dev := dev w |},
   map (fun k => EvLog Warn (MsgInvalidKey k)) (invalid_keys config) ++
   map EvAddTrigger (query_nodes "pluggit_send" config)).
Proof.
  unfold pre_stage. unfold bind at 1.
  rewrite listeners_run by apply query_nodes_have.
  rewrite senders_run by apply query_nodes_have.
  reflexivity.
Qed.

Lemma install_sender_fields l p :
  _myTempReadDict (fold_left install_sender l p) = _myTempReadDict p /\
  _is_connected (fold_left install_sender l p) = _is_connected p /\
  _Pluggit (fold_left install_sender l p) = _Pluggit p.
Proof.
  revert p. induction l as [|item l IH]; intros p; [now repeat split|].
  cbn [fold_left]. destruct (IH (install_sender p item)) as (A & B & C).
  rewrite A, B, C. unfold install_sender.
  now destruct (dict_get "pluggit_send" (attr item)).
Qed.

Lemma install_listener_fields l p :
  _myTempWriteDict (fold_left install_listener l p) = _myTempWriteDict p /\
  _is_connected (fold_left install_listener l p) = _is_connected p /\
  _Pluggit (fold_left install_listener l p) = _Pluggit p.
Proof.
  revert p. induction l as [|item l IH]; intros p; [now repeat split|].
  cbn [fold_left]. destruct (IH (install_listener p item)) as (A & B & C).
  rewrite A, B, C. unfold install_listener.
  destruct (dict_get "pluggit_listen" (attr item)) as [k|]; [|now repeat split].
  now destruct (dict_mem k _modbusRegisterDic).
Qed.

Lemma warnings_of_keys ks :
  warnings (map (fun k => EvLog Warn (MsgInvalidKey k)) ks) =
  map MsgInvalidKey ks.
Proof. induction ks as [|k ks IH]; [reflexivity|]. cbn. f_equal. exact IH. Qed.

Lemma triggers_of_items (l : list Item) : triggers (map EvAddTrigger l) = l.
Proof. induction l as [|i l IH]; [reflexivity|]. cbn. f_equal. exact IH. Qed.

Lemma quiet_warnings ks :
  triggers (map (fun k => EvLog Warn (MsgInvalidKey k)) ks) = [] /\
  requests (map (fun k => EvLog Warn (MsgInvalidKey k)) ks) = [] /\
  publications (map (fun k => EvLog Warn (MsgInvalidKey k)) ks) = [].
Proof. induction ks as [|k ks IH]; [now repeat split|exact IH]. Qed.

Lemma quiet_triggers (l : list Item) :
  warnings (map EvAddTrigger l) = [] /\
  requests (map EvAddTrigger l) = [] /\
  publications (map EvAddTrigger l) = [].
Proof. induction l as [|i l IH]; [now repeat split|exact IH]. Qed.

(** X5: [pre_stage] never raises and does not touch the device or the
    connection state. It warns once for each listening item whose key
    is not a register name, in configuration order, and registers the
    write callback on each sending item, in configuration order; it sends
    nothing and publishes nothing. *)
Theorem pre_stage_effects config (w : World D) :
  let x := pre_stage config w in
  outcome x = Ok tt /\
  dev (world_of x) = dev w /\
  _is_connected (self (world_of x)) = _is_connected (self w) /\
  _Pluggit (self (world_of x)) = _Pluggit (self w) /\
  warnings (events x) = map MsgInvalidKey (invalid_keys config) /\
  triggers (events x) = query_nodes "pluggit_send" config /\
  requests (events x) = [] /\
  publications (events x) = [].
Proof.
  cbv zeta. rewrite pre_stage_closed_form.
  unfold outcome, world_of, events. cbn [fst snd self dev].
  destruct (install_sender_fields (query_nodes "pluggit_send" config)
              (fold_left install_listener
                 (query_nodes "pluggit_listen" config) (self w)))
    as (_ & B & C).
  destruct (install_listener_fields (query_nodes "pluggit_listen" config)
              (self w)) as (_ & B' & C').
  rewrite B, C, B', C'. clear B C B' C'.
  destruct (quiet_warnings (invalid_keys config)) as (W1 & W2 & W3).
  destruct (quiet_triggers (query_nodes "pluggit_send" config))
    as (T1 & T2 & T3).
  unfold warnings, triggers, requests, publications in *.
  rewrite !flat_map_app, W1, W2, W3, T1, T2, T3.
  fold (warnings (map (fun k => EvLog Warn (MsgInvalidKey k))
                      (invalid_keys config))).
  fold (triggers (map EvAddTrigger (query_nodes "pluggit_send" config))).
  rewrite warnings_of_keys, triggers_of_items, app_nil_r.
  repeat split.
Qed.

Lemma listeners_of_all config p :
  fold_left install_listener (query_nodes "pluggit_listen" config) p =
  fold_left install_listener config p.
Proof.
  unfold query_nodes. revert p.
  induction config as [|item l IH]; intros p; [reflexivity|].
  cbn [filter fold_left]. unfold dict_mem at 1, install_listener at 3.
  destruct (dict_get "pluggit_listen" (attr item)) as [k|] eqn:A.
  - cbn [fold_left]. unfold install_listener at 2. rewrite A. apply IH.
  - apply IH.
Qed.

Lemma listeners_known l p :
  forallb (fun k => dict_mem k _modbusRegisterDic)
          (keys (_myTempReadDict p)) = true ->
  forallb (fun k => dict_mem k _modbusRegisterDic)
          (keys (_myTempReadDict (fold_left install_listener l p))) = true.
Proof.
  revert p. induction l as [|item l IH]; intros p K; [exact K|].
  cbn [fold_left]. apply IH. unfold install_listener.
  destruct (dict_get "pluggit_listen" (attr item)) as [k|]; [|exact K].
  destruct (dict_mem k _modbusRegisterDic) eqn:M; [|exact K].
  cbn. now apply forallb_keys_dict_set.
Qed.

Lemma listeners_last_wins key l p :
  dict_get key (_myTempReadDict (fold_left install_listener l p)) =
  match last_listener key l with
  | Some item => Some item
  | None => dict_get key (_myTempReadDict p)
  end.
Proof.
  revert p. induction l as [|item l IH]; intros p; [reflexivity|].
  cbn [fold_left last_listener]. rewrite IH.
  destruct (last_listener key l) as [later|]; [reflexivity|].
  unfold install_listener.
  destruct (dict_get "pluggit_listen" (attr item)) as [k|]; [|reflexivity].
  destruct (dict_mem k _modbusRegisterDic).
  - cbn. destruct (String.eqb_spec k key) as [->|N]; cbn.
    + apply dict_get_set_same.
    + now apply dict_get_set_other.
  - now rewrite andb_false_r.
Qed.

(** X6: [pre_stage] keeps the read dictionary as the refresh cycle needs
    it: the keys stay distinct, every item stays bound under the key that
    its own attribute names, and every key is a key of the register
    dictionary, so that looking a bound key up there cannot fail. *)
Theorem pre_stage_binds_known_keys config (w : World D) :
  well_bound (_myTempReadDict (self w)) = true ->
  forallb (fun k => dict_mem k _modbusRegisterDic)
          (keys (_myTempReadDict (self w))) = true ->
  let rd := _myTempReadDict (self (world_of (pre_stage config w))) in
  well_bound rd = true /\
  forallb (fun k => dict_mem k _modbusRegisterDic) (keys rd) = true.
Proof.
  intros W K. split; [now apply pre_stage_well_bound|].
  rewrite pre_stage_closed_form. unfold world_of. cbn [fst snd self].
  destruct (install_sender_fields (query_nodes "pluggit_send" config)
              (fold_left install_listener
                 (query_nodes "pluggit_listen" config) (self w)))
    as (R & _).
  rewrite R. now apply listeners_known.
Qed.

(** X7: when several items listen under the same register name, the
    last one in the configuration is the one bound; a name under which
    no item listens keeps its earlier binding, and [pre_stage] binds no
    name that is not in the register dictionary. *)
Theorem pre_stage_last_wins config (w : World D) key :
  dict_get key (_myTempReadDict (self (world_of (pre_stage config w)))) =
  match last_listener key config with
  | Some item => Some item
  | None => dict_get key (_myTempReadDict (self w))
  end.
Proof.
  rewrite pre_stage_closed_form. unfold world_of. cbn [fst snd self].
  destruct (install_sender_fields (query_nodes "pluggit_send" config)
              (fold_left install_listener
                 (query_nodes "pluggit_listen" config) (self w)))
    as (R & _).
  rewrite R, listeners_of_all. apply listeners_last_wins.
Qed.

End PreStage.

(** ** The command dispatcher *)

(** Finds the raising request among the events of a run. *)
Ltac find_raised I :=
  match type of I with
  | _ = _ \/ _ =>
      let J := fresh "J" in
      destruct I as [J|I];
      [first [discriminate J | injection J as <- <-] | find_raised I]
  | False => destruct I
  end.

Section Dispatcher.
Context {D : Type} `{T : ModbusTransport D}.

(** X8: a notification is ignored, apart from one log line, unless the
    command of the item is "activatePowerBoost" and the value is a
    boolean: nothing is sent to the device, there is no delay, and the
    plugin and the device stay as they are. *)
Theorem update_item_ignored value trigger (w : World D) :
  dict_get "pluggit_send" (attr (node trigger)) <> Some "activatePowerBoost"
  \/ isinstance_bool value = false ->
  outcome (update_item value trigger w) = Ok tt /\
  world_of (update_item value trigger w) = w /\
  without_log (events (update_item value trigger w)) = [].
Proof.
  intros I. unfold update_item.
  destruct (String.eqb (caller trigger) "Pluggit"); [cbn; repeat split; reflexivity|].
  cbn [negb]. unfold dict_mem, attr_of.
  destruct (dict_get "pluggit_send" (attr (node trigger))) as [command|];
    [|cbn; repeat split; reflexivity].
  assert (X : String.eqb command "activatePowerBoost"
              && isinstance_bool value = false).
  { destruct I as [N| ->]; [|apply andb_false_r].
    destruct (String.eqb_spec command "activatePowerBoost") as [->|_];
      [now destruct N|reflexivity]. }
  unfold bind, ret, log, emit. rewrite X. destruct w. cbn. repeat split; reflexivity.
Qed.

(** X9: whatever the notification, the dispatcher never opens or closes
    a session, never takes the lock, never publishes to an item, and
    leaves the attributes of the plugin as they are. *)
Theorem update_item_keeps_plugin value trigger (w : World D) :
  self (world_of (update_item value trigger w)) = self w /\
  session_opens (events (update_item value trigger w)) = [] /\
  closes (events (update_item value trigger w)) = [] /\
  lock_events (events (update_item value trigger w)) = [] /\
  publications (events (update_item value trigger w)) = [].
Proof.
  unfold update_item.
  destruct (String.eqb (caller trigger) "Pluggit"); [cbn; repeat split; reflexivity|].
  cbn [negb]. unfold dict_mem, attr_of.
  destruct (dict_get "pluggit_send" (attr (node trigger))) as [command|];
    [|cbn; repeat split; reflexivity].
  unfold bind, ret, log, emit. cbv beta iota.
  destruct (String.eqb command "activatePowerBoost");
    [|destruct w; cbn; repeat split; reflexivity].
  destruct value as [|b|n|s|x]; try (destruct w; cbn; repeat split; reflexivity).
  open_world w T. destruct b; methods; crank.
  all: repeat split; reflexivity.
Qed.

(** X10: the dispatcher does not catch exceptions: when a request of a
    command raises, the command raises the same exception at once, and
    that request is the last one sent. *)
Theorem command_failure_propagates value trigger (w : World D) rq e :
  In (EvExec rq (Raise e)) (events (update_item value trigger w)) ->
  outcome (update_item value trigger w) = Raise e /\
  exists before,
    requests (events (update_item value trigger w)) = before ++ [rq].
Proof.
  unfold update_item.
  destruct (String.eqb (caller trigger) "Pluggit"); [intros []|].
  cbn [negb]. unfold dict_mem, attr_of.
  destruct (dict_get "pluggit_send" (attr (node trigger))) as [command|];
    [|intros []].
  unfold bind, ret, log, emit. cbv beta iota.
  destruct (String.eqb command "activatePowerBoost");
    [|destruct w; cbn; intros [I|[]]; discriminate I].
  destruct value as [|b|n|s|x];
    try (destruct w; cbn; intros [I|[]]; discriminate I).
  open_world w T. destruct b; methods; crank.
  all: intros I; find_raised I.
  all: split; [reflexivity|].
  all: match goal with
       | |- exists before, ?l = before ++ [_] =>
           exists (removelast l); reflexivity
       end.
Qed.

(** X11: the dispatcher does not connect: a power-boost command that
    arrives while the plugin holds no client raises an attribute error
    before anything is sent. *)
Theorem command_needs_client (b : bool) trigger (w : World D) :
  caller trigger <> "Pluggit" ->
  dict_get "pluggit_send" (attr (node trigger)) = Some "activatePowerBoost" ->
  _Pluggit (self w) = false ->
  outcome (update_item (VBool b) trigger w) =
    Raise (AttributeError "_Pluggit") /\
  without_log (events (update_item (VBool b) trigger w)) = [].
Proof.
  intros NE A C. apply String.eqb_neq in NE.
  unfold update_item. rewrite NE. unfold dict_mem, attr_of. rewrite A.
  cbn [negb]. open_world w T. cbn in C. subst.
  destruct b; methods; cbn; now split.
Qed.

End Dispatcher.

(** ** More on the refresh cycle *)

Section RefreshCycle.
Context {D : Type} `{T : ModbusTransport D}.

(** X12: every refresh cycle forces a new session, whatever the state
    it starts in. Its events are, in this order: the old session is
    closed when the plugin had one; the pause of 1000 ms; the lock is
    acquired, one client is built on the device as the close left it,
    and the lock is released; then the events of the loop, which are
    requests, publications and delays only, so that the loop opens and
    closes nothing; then one closing log line. *)
Theorem refresh_forces_new_session (w : World D) :
  exists loop closing,
    events (_refresh w) =
      (if has_session (self w) then [EvClose (fst (close (dev w)))] else [])
      ++ [EvLog Info MsgDisconnectTook; EvSleep 1000]
      ++ connect_trace (_host (self w)) (_port (self w))
           (fst (ModbusTcpClient (_host (self w)) (_port (self w))
                   (if has_session (self w) then snd (close (dev w))
                    else dev w)))
      ++ loop ++ [closing] /\
    forallb loop_event loop = true /\
    is_log closing = true.
Proof.
  destruct (_refresh_trace w) as (loop & closing & E & _ & K & C).
  exists loop, closing. split; [|split; [exact K|]].
  - rewrite E. unfold session_trace, disconnect_trace, new_client,
      closed_device. now rewrite <- !app_assoc.
  - subst closing. now destruct (outcome _).
Qed.

(** X13: [_refresh] never raises, whatever the device does, and leaves
    the host, the port, the period, the [alive] flag and both
    dictionaries as they are. *)
Theorem refresh_never_raises (w : World D) :
  let p := self (world_of (_refresh w)) in
  outcome (_refresh w) = Ok tt /\
  _host p = _host (self w) /\ _port p = _port (self w) /\
  _cycle p = _cycle (self w) /\ alive p = alive (self w) /\
  _myTempReadDict p = _myTempReadDict (self w) /\
  _myTempWriteDict p = _myTempWriteDict (self w).
Proof.
  destruct (_refresh_parts w) as (O & W & _). cbv zeta.
  rewrite W, loop_self.
  split; [exact O|]. apply fresh_session_fields.
Qed.

(** X14: in a cycle whose loop raises nothing the requests are, in the
    order of the read dictionary, the single-register read of each key
    followed for a temperature by its two-register read, and nothing
    else. *)
Theorem refresh_requests_in_order (w : World D) :
  outcome (refresh_loop (world_of (fresh_session w))) = Ok tt ->
  requests (events (_refresh w)) =
  flat_map reads_for (keys (_myTempReadDict (self w))).
Proof.
  intros O. rewrite refresh_loop_run, fresh_session_dict in O.
  destruct (_refresh_parts w) as (_ & _ & ->).
  rewrite !requests_app.
  destruct (fresh_session_facts w) as (_ & _ & _ & _ & -> & _).
  destruct (loop_ok_requests _ _ O) as (-> & _).
  rewrite O. cbn. now rewrite app_nil_r.
Qed.

(** X15: the delays of a cycle whose loop raises nothing, and where
    they fall. The cycle is the disconnect, then the pause of 1000 ms,
    then the connect, then one block of events for each key of the read
    dictionary, in order, then the line of a completed cycle; the block
    of a key is its reads and what it publishes, with no delay among
    them, followed by a delay of 100 ms. These are all the delays:
    1000 + 100 N ms for N parameters. *)
Theorem refresh_delays (w : World D) :
  outcome (refresh_loop (world_of (fresh_session w))) = Ok tt ->
  (exists blocks,
     events (_refresh w) =
       disconnect_trace w ++ [EvSleep 1000]
       ++ connect_trace (_host (self w)) (_port (self w))
                        (fst (new_client w))
       ++ List.concat blocks ++ [EvLog Debug MsgCycleTook] /\
     Forall2 iteration_block (keys (_myTempReadDict (self w))) blocks) /\
  sleeps (events (_refresh w)) =
    1000 :: repeat 100 (List.length (_myTempReadDict (self w))) /\
  fold_right Z.add 0 (sleeps (events (_refresh w))) =
    1000 + 100 * Z.of_nat (List.length (_myTempReadDict (self w))).
Proof.
  intros O. rewrite refresh_loop_run, fresh_session_dict in O.
  assert (E : sleeps (events (_refresh w)) =
              1000 :: repeat 100 (List.length (_myTempReadDict (self w)))).
  { destruct (_refresh_parts w) as (_ & _ & ->).
    rewrite !sleeps_app.
    destruct (fresh_session_facts w) as (_ & _ & _ & -> & _).
    destruct (loop_ok_requests _ _ O) as (_ & ->).
    rewrite O. cbn. unfold keys. now rewrite app_nil_r, length_map. }
  split; [|split; [exact E|]].
  - destruct (loop_blocks _ _ O) as (blocks & B & F).
    exists blocks. split; [|exact F].
    destruct (_refresh_parts w) as (_ & _ & ->).
    rewrite B, O, fresh_session_run. unfold events at 1. cbn [snd].
    unfold session_trace. now rewrite <- !app_assoc.
  - rewrite E. cbn [fold_right]. now rewrite sum_repeat.
Qed.

(** X16: a refresh cycle publishes nothing that it has not just read:
    every value that it pushes goes to an item bound under a key of the
    read dictionary, and the single-register read of that key returned a
    register in the same cycle. *)
Theorem refresh_publishes_what_it_read (w : World D) item v :
  In (item, v) (publications (events (_refresh w))) ->
  exists key a raw rest,
    dict_get key (_myTempReadDict (self w)) = Some item /\
    dict_get key _modbusRegisterDic = Some a /\
    In (EvExec (single_read a) (Ok (RegistersResponse (raw :: rest))))
       (events (_refresh w)).
Proof.
  destruct (_refresh_parts w) as (_ & _ & ->).
  rewrite !publications_app, fresh_session_quiet. cbn [app].
  intros [I|I]%in_app_or; [|now destruct (outcome (for_each _ _ _))].
  apply In_publications in I.
  destruct (loop_iteration _ _ _ I) as (key & w' & _ & S & J & N).
  apply In_publications in J.
  destruct (outcome (refresh_param key w')) as [[]|e] eqn:O.
  - destruct (refresh_param_ok key w' O)
      as (a & item' & raw & rest & vs & Ga & Gi & Iv & _ & P & _).
    apply refresh_param_publications in J.
    rewrite S, fresh_session_dict in J.
    exists key, a, raw, rest. split; [exact J|]. split; [exact Ga|].
    apply in_or_app. right. apply in_or_app. left. apply N, Iv.
  - rewrite (refresh_param_raise key w' e O) in J. destruct J.
Qed.

(** X17: when iteration number [k] is the first of a cycle to raise,
    the rest of the cycle is abandoned. The exception [e] that the
    iteration of the key at index [k] raised, run after the [k]
    iterations before it, is the one in the error line with which the
    cycle ends; a request on which the transport raised raised this very
    exception. Every request of the cycle is a read of one of the first
    [k + 1] keys, none of a later key, and the line of a completed cycle
    is not written. *)
Theorem refresh_abandons_rest (w : World D) (k : nat) :
  first_failure (keys (_myTempReadDict (self w)))
                (world_of (fresh_session w)) 0 = Some k ->
  exists key e,
    nth_error (keys (_myTempReadDict (self w))) k = Some key /\
    outcome (refresh_param key
               (world_of (for_each (firstn k (keys (_myTempReadDict (self w))))
                                   refresh_param
                                   (world_of (fresh_session w))))) =
      Raise e /\
    (exists before,
       events (_refresh w) =
       before ++ [EvLog Error (MsgRefreshWentWrong e)]) /\
    (forall rq e', In (EvExec rq (Raise e')) (events (_refresh w)) ->
                   e' = e) /\
    (forall rq, In rq (requests (events (_refresh w))) ->
       exists key',
         In key' (firstn (S k) (keys (_myTempReadDict (self w)))) /\
         In rq (reads_for key')) /\
    ~ In (EvLog Debug MsgCycleTook) (events (_refresh w)).
Proof.
  intros F.
  destruct (loop_failure_at _ _ _ _ F) as (key & e & Nk & Ok' & O).
  rewrite Nat.sub_0_r in Nk, Ok'.
  destruct (fresh_session_facts w) as (_ & _ & _ & _ & Rq & NL).
  destruct (_refresh_parts w) as (_ & _ & ->).
  rewrite O. exists key, e.
  split; [exact Nk|]. split; [exact Ok'|].
  split; [|split; [|split]].
  - eexists. now rewrite app_assoc.
  - intros rq e' [I|[I|I]%in_app_or]%in_app_or.
    + apply In_requests in I. rewrite Rq in I. destruct I.
    + apply loop_raised in I. rewrite O in I. now injection I.
    + destruct I as [I|[]]. discriminate I.
  - intros rq. rewrite !requests_app, Rq. cbn [app].
    intros [I|I]%in_app_or; [|destruct I].
    destruct (loop_failure_requests _ _ _ _ rq F I) as (key' & K & Q).
    exists key'. split; [|exact Q]. now rewrite Nat.sub_0_r in K.
  - intros [I|[I|I]%in_app_or]%in_app_or.
    + now apply NL.
    + pose proof (loop_kinds (keys (_myTempReadDict (self w)))
                             (world_of (fresh_session w))) as K.
      rewrite forallb_forall in K. apply K in I. discriminate I.
    + destruct I as [I|[]]. discriminate I.
Qed.

End RefreshCycle.


Section Parameters.
Context {D : Type} `{T : ModbusTransport D}.

(** X18: the fan speed level and the remaining filter time are
    published as the raw register value, unchanged, once. *)
Theorem raw_values_pass_through key a (w : World D) item raw rest d' :
  key = "prmRomIdxSpeedLevel" \/ key = "prmFilterRemainingTime" ->
  dict_get key _modbusRegisterDic = Some a ->
  dict_get key (_myTempReadDict (self w)) = Some item ->
  _Pluggit (self w) = true ->
  execute (single_read a) (dev w) =
    (Ok (RegistersResponse (raw :: rest)), d') ->
  publications (events (refresh_param key w)) = [(item, VInt raw)].
Proof.
  intros K Ga Gi C E.
  rewrite (integer_param_run key a item raw rest d' w Ga); trivial.
  - now destruct K as [-> | ->].
  - now destruct K as [-> | ->].
Qed.

(** X19: a temperature is decoded from the answer to the two-register
    read alone: the word that the single-register read returned first
    has no influence, but that read must have returned one. When the two
    registers do not decode, the iteration raises and publishes nothing. *)
Theorem temperature_from_second_read key a (w : World D) item raw rest d1
        regs d2 :
  is_temperature key = true ->
  dict_get key _modbusRegisterDic = Some a ->
  dict_get key (_myTempReadDict (self w)) = Some item ->
  _Pluggit (self w) = true ->
  execute (single_read a) (dev w) =
    (Ok (RegistersResponse (raw :: rest)), d1) ->
  execute (dual_read a) d1 = (Ok (RegistersResponse regs), d2) ->
  match temperature_of regs with
  | Ok t =>
      outcome (refresh_param key w) = Ok tt /\
      publications (events (refresh_param key w)) = [(item, t)]
  | Raise e =>
      outcome (refresh_param key w) = Raise e /\
      publications (events (refresh_param key w)) = []
  end.
Proof.
  intros F Ga Gi C E1 E2.
  rewrite refresh_param_closed_form. unfold iteration, poll.
  rewrite Ga, Gi, C, E1, F, E2.
  destruct (temperature_of regs) as [t|e]; now split.
Qed.

(** X20: [_refresh] does not look at what [connect] returned: when the
    constructor of the client raises, the plugin stays disconnected and
    the loop still sends the read of the first key through the client
    that an earlier [connect] had built. *)
Theorem refresh_reads_after_failed_connect key others a e d1 (w : World D) :
  _is_connected (self w) = false ->
  _Pluggit (self w) = true ->
  ModbusTcpClient (_host (self w)) (_port (self w)) (dev w) = (Raise e, d1) ->
  keys (_myTempReadDict (self w)) = key :: others ->
  dict_get key _modbusRegisterDic = Some a ->
  _is_connected (self (world_of (_refresh w))) = false /\
  hd_error (requests (events (_refresh w))) = Some (single_read a) /\
  In (EvLog Error
        (MsgCouldNotConnect (_host (self w)) (_port (self w)) e))
     (events (_refresh w)).
Proof.
  intros C P E K Ga.
  assert (S : fresh_session w =
    (Ok VNone, {| self := self w; dev := d1 |},
     [EvLog Info MsgDisconnectTook; EvSleep 1000; EvAcquire;
      EvLog Info (MsgConnecting (_host (self w)) (_port (self w)));
      EvNewClient (_host (self w)) (_port (self w)) (Raise e);
      EvLog Error (MsgCouldNotConnect (_host (self w)) (_port (self w)) e);
      EvRelease])).
  { clear K Ga. open_world w T. cbn in C, P, E. subst.
    methods. unfold set_connected. cbn. rewrite E. reflexivity. }
  destruct (_refresh_parts w) as (_ & W & ->).
  rewrite W, loop_self, S. unfold world_of, events. cbn [fst snd self].
  split; [exact C|]. split; [|cbn; tauto].
  rewrite K, for_each_cons.
  assert (G : exists item,
             dict_get key (_myTempReadDict (self w)) = Some item).
  { unfold keys in K. destruct (_myTempReadDict (self w)) as [|[k item] rd];
      [discriminate K|].
    injection K as -> _. exists item. cbn. now rewrite String.eqb_refl. }
  destruct G as [item G].
  assert (Q : exists r tl,
    events (refresh_param key {| self := self w; dev := d1 |}) =
    EvExec (single_read a) r :: tl).
  { rewrite refresh_param_closed_form. unfold iteration. cbn [self dev].
    rewrite Ga, G, P.
    destruct (poll_shape key a d1 Ga) as (_ & (r & tl & Q) & _).
    destruct (poll key a d1) as [[[vs|e'] d2] reads]; cbn [snd] in Q; subst.
    - exists r. eexists. reflexivity.
    - exists r, tl. reflexivity. }
  destruct Q as (r & tl & Q).
  destruct (outcome (refresh_param key _)).
  - unfold prepend, events in *. cbn [snd] in *. rewrite Q. reflexivity.
  - unfold events in *. cbn [snd] in *. rewrite Q. reflexivity.
Qed.

(** X21: an answer to the single-register read that holds no register
    aborts the iteration: an empty register list raises an index error,
    any other kind of response (an exception response of the device
    among them) an attribute error; nothing is published, no second read
    is sent and there is no delay. *)
Theorem refresh_param_bad_answer key a (w : World D) item r d1 :
  dict_get key _modbusRegisterDic = Some a ->
  dict_get key (_myTempReadDict (self w)) = Some item ->
  _Pluggit (self w) = true ->
  execute (single_read a) (dev w) = (Ok r, d1) ->
  (forall raw rest, r <> RegistersResponse (raw :: rest)) ->
  outcome (refresh_param key w) =
    Raise (match r with
           | RegistersResponse _ => IndexError
           | _ => AttributeError "getRegister"
           end) /\
  events (refresh_param key w) = [EvExec (single_read a) (Ok r)].
Proof.
  intros Ga Gi C E N.
  rewrite refresh_param_closed_form. unfold iteration, poll.
  rewrite Ga, Gi, C, E.
  destruct r as [[|raw rest]| | |]; try (now split).
  now destruct (N raw rest).
Qed.

(** X22: after a refresh cycle the plugin is connected exactly when
    the constructor of the client did not raise, whatever the loop did:
    a cycle that failed leaves the session for the next cycle to close. *)
Theorem refresh_connection_state (w : World D) :
  _is_connected (self (world_of (_refresh w))) =
  is_ok (fst (ModbusTcpClient (_host (self w)) (_port (self w))
                              (dev (world_of (disconnect w))))).
Proof.
  destruct (_refresh_parts w) as (_ & -> & _). rewrite loop_self.
  open_world w T. methods. unfold set_connected, set_client. crank.
  all: reflexivity.
Qed.

End Parameters.

(** ** Further runs against the simulated unit *)

Module MoreRuns.
Import Simulation.

Lemma connect_when_disconnected_witness :
  outcome (connect ready) = Ok VNone /\
  events (connect ready) =
    [EvAcquire; EvLog Info (MsgConnecting "192.168.0.10" "502");
     EvNewClient "192.168.0.10" "502" (Ok tt);
     EvRelease; EvLog Info (MsgConnected "192.168.0.10" "502");
     EvLog Info MsgConnectionTook] /\
  _is_connected (self (world_of (connect ready))) = true.
Proof.
  destruct (connect_when_disconnected ready eq_refl) as (A & B & _ & C & _).
  split; [exact A|]. split; [exact B|exact C].
Defined.

Lemma pre_stage_binds_known_keys_witness :
  let rd := _myTempReadDict (self (world_of (pre_stage config Bench.unbuilt))) in
  well_bound rd = true /\
  forallb (fun k => dict_mem k _modbusRegisterDic) (keys rd) = true.
Proof.
  apply (pre_stage_binds_known_keys config Bench.unbuilt).
  - reflexivity.
  - reflexivity.
Defined.

Lemma update_item_ignored_witness :
  outcome (update_item (VInt 1) (from_user boost) ready) = Ok tt /\
  world_of (update_item (VInt 1) (from_user boost) ready) = ready /\
  without_log (events (update_item (VInt 1) (from_user boost) ready)) = [].
Proof.
  apply (update_item_ignored (VInt 1) (from_user boost) ready).
  right. reflexivity.
Defined.

Lemma command_failure_propagates_witness :
  outcome (update_item (VBool true) (from_user boost) (installed Bench.deaf))
    = Raise (ModbusException 4) /\
  exists before,
    requests (events (update_item (VBool true) (from_user boost)
                                  (installed Bench.deaf)))
    = before ++ [single_read 168].
Proof.
  apply (command_failure_propagates (VBool true) (from_user boost)
           (installed Bench.deaf) (single_read 168) (ModbusException 4)).
  vm_compute. tauto.
Defined.

Lemma command_needs_client_witness :
  outcome (update_item (VBool true) (from_user boost) Bench.unbuilt) =
    Raise (AttributeError "_Pluggit") /\
  without_log (events (update_item (VBool true) (from_user boost)
                                   Bench.unbuilt)) = [].
Proof.
  apply (command_needs_client true (from_user boost) Bench.unbuilt).
  - discriminate.
  - reflexivity.
  - reflexivity.
Defined.

Lemma refresh_requests_in_order_witness :
  requests (events (_refresh ready)) =
  flat_map reads_for (keys (_myTempReadDict (self ready))).
Proof.
  apply (refresh_requests_in_order ready). vm_compute. reflexivity.
Defined.

Lemma refresh_delays_witness :
  (exists blocks,
     events (_refresh ready) =
       disconnect_trace ready ++ [EvSleep 1000]
       ++ connect_trace "192.168.0.10" "502" (fst (new_client ready))
       ++ List.concat blocks ++ [EvLog Debug MsgCycleTook] /\
     Forall2 iteration_block (keys (_myTempReadDict (self ready))) blocks) /\
  sleeps (events (_refresh ready)) =
    1000 :: repeat 100 (List.length (_myTempReadDict (self ready))) /\
  fold_right Z.add 0 (sleeps (events (_refresh ready))) =
    1000 + 100 * Z.of_nat (List.length (_myTempReadDict (self ready))).
Proof.
  apply (refresh_delays ready). vm_compute. reflexivity.
Defined.

Lemma refresh_publishes_what_it_read_witness :
  exists key a raw rest,
    dict_get key (_myTempReadDict (self ready)) = Some fanSpeed /\
    dict_get key _modbusRegisterDic = Some a /\
    In (EvExec (single_read a) (Ok (RegistersResponse (raw :: rest))))
       (events (_refresh ready)).
Proof.
  apply (refresh_publishes_what_it_read ready fanSpeed (VInt 3)).
  vm_compute. tauto.
Defined.

(** On the faulty unit the read of the week program number, the key
    at index 2, raises the Modbus exception 4. *)
Lemma refresh_abandons_rest_witness :
  let w := installed faulty in
  exists key e,
    nth_error (keys (_myTempReadDict (self w))) 2 = Some key /\
    outcome (refresh_param key
               (world_of (for_each (firstn 2 (keys (_myTempReadDict (self w))))
                                   refresh_param
                                   (world_of (fresh_session w))))) =
      Raise e /\
    (exists before,
       events (_refresh w) =
       before ++ [EvLog Error (MsgRefreshWentWrong e)]) /\
    (forall rq e', In (EvExec rq (Raise e')) (events (_refresh w)) ->
                   e' = e) /\
    (forall rq, In rq (requests (events (_refresh w))) ->
       exists key',
         In key' (firstn 3 (keys (_myTempReadDict (self w)))) /\
         In rq (reads_for key')) /\
    ~ In (EvLog Debug MsgCycleTook) (events (_refresh w)).
Proof.
  apply (refresh_abandons_rest (installed faulty) 2).
  vm_compute. reflexivity.
Defined.

Lemma raw_values_pass_through_witness :
  publications (events (refresh_param "prmFilterRemainingTime" ready)) =
  [(filterTime, VInt 120)].
Proof.
  apply (raw_values_pass_through "prmFilterRemainingTime" 554 ready
           filterTime 120 [] (healthy 8 255)).
  - right. reflexivity.
  - reflexivity.
  - reflexivity.
  - reflexivity.
  - reflexivity.
Defined.

Lemma temperature_from_second_read_witness :
  outcome (refresh_param "prmRamIdxT2" ready) = Ok tt /\
  publications (events (refresh_param "prmRamIdxT2" ready)) =
    [(t2, VFloat (PyFloat.double_of_decimal false 2346 100))].
Proof.
  apply (temperature_from_second_read "prmRamIdxT2" 135 ready t2
           16827 [] (healthy 8 255) [16827; 42467] (healthy 8 255)).
  - reflexivity.
  - reflexivity.
  - reflexivity.
  - reflexivity.
  - reflexivity.
  - reflexivity.
Defined.

Lemma refresh_reads_after_failed_connect_witness :
  _is_connected (self (world_of (_refresh (H := Bench.offline) ready)))
    = false /\
  hd_error (requests (events (_refresh (H := Bench.offline) ready))) =
    Some (single_read 168) /\
  In (EvLog Error
        (MsgCouldNotConnect "192.168.0.10" "502" (ModbusException 11)))
     (events (_refresh (H := Bench.offline) ready)).
Proof.
  apply (refresh_reads_after_failed_connect (T := Bench.offline)
           "prmRamIdxUnitMode"
           ["prmRamIdxT1"; "prmNumOfWeekProgram";
            "prmRamIdxBypassActualState"; "prmRomIdxSpeedLevel";
            "prmRamIdxT2"; "prmFilterRemainingTime"]
           168 (ModbusException 11) (healthy 8 255) ready).
  - reflexivity.
  - reflexivity.
  - reflexivity.
  - reflexivity.
  - reflexivity.
Defined.

Lemma refresh_param_bad_answer_witness :
  outcome (refresh_param (H := Bench.rejecting) "prmRamIdxUnitMode" ready) =
    Raise (AttributeError "getRegister") /\
  events (refresh_param (H := Bench.rejecting) "prmRamIdxUnitMode" ready) =
    [EvExec (single_read 168) (Ok (ExceptionResponse 3 2))].
Proof.
  apply (refresh_param_bad_answer (T := Bench.rejecting)
           "prmRamIdxUnitMode" 168 ready unitMode (ExceptionResponse 3 2)
           (healthy 8 255)).
  - reflexivity.
  - reflexivity.
  - reflexivity.
  - reflexivity.
  - discriminate.
Defined.

End MoreRuns.
